(** * SkateInsight: header and results-table extraction for Skate Canada PDFs

    A shallow embedding of [src/data_extraction/skate_canada/pdf_extraction.py]
    and the properties of its date-line locator, document classifier, header
    assembler and table normaliser.

    Python [str] values are modelled as [string]; a character stands for the
    Unicode code point of the same number, so the model covers texts over
    code points 0..255.  The character classes below are the restrictions of
    Python's Unicode classes to that range. *)

From Stdlib Require Import ZArith NArith Ascii String Bool Lia.
From stdpp Require Import base option list strings.

Local Open Scope string_scope.
Local Open Scope list_scope.
Local Open Scope Z_scope.

(** ** Outcomes of a Python call *)

Inductive exn := IndexError | KeyError | AttributeError | ReferenceError.

Inductive result (A : Type) :=
  | Ret (a : A)
  | Raise (e : exn).
Arguments Ret {A} a.
Arguments Raise {A} e.

#[global] Instance result_ret : MRet result := fun _ a => Ret a.
#[global] Instance result_bind : MBind result := fun _ _ f m =>
  match m with
  | Ret a => f a
  | Raise e => Raise e
  end.
#[global] Instance result_fmap : FMap result := fun _ _ f m =>
  match m with
  | Ret a => Ret (f a)
  | Raise e => Raise e
  end.

(** ** Python's built-in string operations *)

Module PyStr.

Definition code (c : ascii) : N := N_of_ascii c.

Definition between (lo hi : N) (c : ascii) : bool :=
  ((lo <=? code c) && (code c <=? hi))%N.

(** [str.isspace] on one character, also the class [\s] of [re] and the
    characters removed by [str.strip()]. *)
Definition is_space (c : ascii) : bool :=
  between 9 13 c || between 28 32 c || between 133 133 c || between 160 160 c.

(** The class [\d] of [re] ([str.isdecimal]). *)
Definition is_decimal (c : ascii) : bool := between 48 57 c.

(** [str.isdigit] on one character: the decimal digits and the
    superscripts U+00B2, U+00B3, U+00B9. *)
Definition is_digit (c : ascii) : bool :=
  is_decimal c || between 178 179 c || between 185 185 c.

Definition is_alpha (c : ascii) : bool :=
  between 65 90 c || between 97 122 c || between 170 170 c
  || between 181 181 c || between 186 186 c || between 192 214 c
  || between 216 246 c || between 248 255 c.

(** The class [\w] of [re]: alphanumeric (letters, digits, and the numeric
    characters U+00BC..U+00BE) or underscore. *)
Definition is_word (c : ascii) : bool :=
  is_alpha c || is_digit c || between 188 190 c || between 95 95 c.

Fixpoint lstrip (s : string) : string :=
  match s with
  | EmptyString => EmptyString
  | String c s' => if is_space c then lstrip s' else s
  end.

Fixpoint rstrip (s : string) : string :=
  match s with
  | EmptyString => EmptyString
  | String c s' =>
      match rstrip s' with
      | EmptyString => if is_space c then EmptyString else String c EmptyString
      | r => String c r
      end
  end.

(** [s.strip()] *)
Definition strip (s : string) : string := rstrip (lstrip s).

(** [s.split(sep)] for a one-character separator: never the empty list. *)
Fixpoint split (sep : ascii) (s : string) : list string :=
  match s with
  | EmptyString => [EmptyString]
  | String c s' =>
      if Ascii.eqb c sep then EmptyString :: split sep s'
      else match split sep s' with
           | piece :: rest => String c piece :: rest
           | [] => [String c EmptyString]
           end
  end.

(** [sep.join(pieces)] *)
Fixpoint join (sep : string) (pieces : list string) : string :=
  match pieces with
  | [] => EmptyString
  | [p] => p
  | p :: rest => p +:+ sep +:+ join sep rest
  end.

Fixpoint prefix (p s : string) : bool :=
  match p, s with
  | EmptyString, _ => true
  | String a p', String b s' => if Ascii.eqb a b then prefix p' s' else false
  | String _ _, EmptyString => false
  end.

(** [sub in s] *)
Fixpoint contains (sub s : string) : bool :=
  if prefix sub s then true
  else match s with
       | EmptyString => false
       | String _ s' => contains sub s'
       end.

Fixpoint all_chars (p : ascii -> bool) (s : string) : bool :=
  match s with
  | EmptyString => true
  | String c s' => if p c then all_chars p s' else false
  end.

(** [s.isdigit()]: every character is a digit and there is at least one. *)
Definition isdigit (s : string) : bool :=
  match s with
  | EmptyString => false
  | _ => all_chars is_digit s
  end.

End PyStr.

(** ** Python's list indexing *)

Module PyList.
Section Ops.
Context {A : Type}.

(** [l[i]]: a negative index counts from the end; out of range raises. *)
Definition getitem (l : list A) (i : Z) : result A :=
  let n := Z.of_nat (length l) in
  let j := if i <? 0 then i + n else i in
  if (j <? 0) || (n <=? j) then Raise IndexError
  else match l !! Z.to_nat j with
       | Some x => Ret x
       | None => Raise IndexError
       end.

(** [l[:k]]: a negative bound counts from the end, clipped at 0. *)
Definition slice_to (l : list A) (k : Z) : list A :=
  let n := Z.of_nat (length l) in
  let j := if k <? 0 then Z.max 0 (k + n) else k in
  take (Z.to_nat j) l.
End Ops.

(** [l.index(x)]: the first position of [x]; [None] stands for [x not in l],
    where Python raises and the caller tests [x in l] first. *)
Fixpoint index (x : string) (l : list string) : option nat :=
  match l with
  | [] => None
  | y :: l' => if String.eqb y x then Some 0%nat else S <$> index x l'
  end.
End PyList.

(** ** The regular expressions of [date_patterns]

    Only the truth value of [pattern.search(line)] is used, so a pattern is
    modelled by the set of strings it matches; the operators are those the
    two patterns are written with. *)

Module Regex.

Inductive re :=
  | Eps
  | Cls (p : ascii -> bool)
  | Seq (a b : re)
  | Alt (a b : re)
  | Opt (a : re)
  | WordB.

Fixpoint lit (s : string) : re :=
  match s with
  | EmptyString => Eps
  | String c s' => Seq (Cls (Ascii.eqb c)) (lit s')
  end.

Definition word_at (o : option ascii) : bool :=
  match o with Some c => PyStr.is_word c | None => false end.

Definition next_char (s : string) : option ascii :=
  match s with String c _ => Some c | EmptyString => None end.

(** [matches r k prev s]: [r] matches a prefix of [s] (whose preceding
    character is [prev]) and the continuation [k] accepts what follows. *)
Fixpoint matches (r : re) (k : option ascii -> string -> bool)
    (prev : option ascii) (s : string) : bool :=
  match r with
  | Eps => k prev s
  | Cls p =>
      match s with
      | String c s' => if p c then k (Some c) s' else false
      | EmptyString => false
      end
  | Seq a b => matches a (matches b k) prev s
  | Alt a b => if matches a k prev s then true else matches b k prev s
  | Opt a => if matches a k prev s then true else k prev s
  | WordB =>
      if xorb (word_at prev) (word_at (next_char s)) then k prev s else false
  end.

Definition accept : option ascii -> string -> bool := fun _ _ => true.

Fixpoint search_from (r : re) (prev : option ascii) (s : string) : bool :=
  if matches r accept prev s then true
  else match s with
       | String c s' => search_from r (Some c) s'
       | EmptyString => false
       end.

(** [bool(pattern.search(line))] *)
Definition search (r : re) (line : string) : bool := search_from r None line.

Fixpoint seqs (rs : list re) : re :=
  match rs with
  | [] => Eps
  | [r] => r
  | r :: rs' => Seq r (seqs rs')
  end.

Fixpoint alts (r : re) (rs : list re) : re :=
  match rs with
  | [] => r
  | r' :: rs' => Alt r (alts r' rs')
  end.

Definition s_ : re := Cls PyStr.is_space.
Definition d_ : re := Cls PyStr.is_decimal.
Definition d12 : re := Seq d_ (Opt d_).
Definition d4 : re := seqs [d_; d_; d_; d_].
Definition sep_ : re := Alt (lit "-") (lit "/").
Definition to_or_dash : re := Alt (lit "to") (lit "-").

End Regex.

Import Regex.

(** [Jan(?:uary)?|Feb(?:ruary)?|...|Dec(?:ember)?] *)
Definition month : re :=
  alts (Seq (lit "Jan") (Opt (lit "uary")))
    [ Seq (lit "Feb") (Opt (lit "ruary"));
      Seq (lit "Mar") (Opt (lit "ch"));
      Seq (lit "Apr") (Opt (lit "il"));
      lit "May";
      Seq (lit "Jun") (Opt (lit "e"));
      Seq (lit "Jul") (Opt (lit "y"));
      Seq (lit "Aug") (Opt (lit "ust"));
      Seq (lit "Sep") (Opt (lit "tember"));
      Seq (lit "Oct") (Opt (lit "ober"));
      Seq (lit "Nov") (Opt (lit "ember"));
      Seq (lit "Dec") (Opt (lit "ember")) ].

(** [\b MONTH \s \d{1,2} -? \s? (?:to|-)? \s? MONTH? \s? \d{1,2} ,? \s \d{4}] *)
Definition written_month_pattern : re :=
  seqs [ WordB; month; s_; d12; Opt (lit "-"); Opt s_; Opt to_or_dash; Opt s_;
         Opt month; Opt s_; d12; Opt (lit ","); s_; d4 ].

(** [\b \d{1,2}[-/]\d{1,2}[-/]\d{4} \s? (?:to|-) \s? \d{1,2}[-/]\d{1,2}[-/]\d{4} \b] *)
Definition numeric_range_pattern : re :=
  seqs [ WordB; d12; sep_; d12; sep_; d4; Opt s_; to_or_dash; Opt s_;
         d12; sep_; d12; sep_; d4; WordB ].

Definition date_patterns : list re :=
  [ written_month_pattern; numeric_range_pattern ].

(** The inner loop of [find_competition_date_line]: some pattern is found in
    the line. *)
Definition is_date_line (line : string) : bool :=
  existsb (fun pattern => search pattern line) date_patterns.

(** The outer loop: the first of the lines in which a pattern is found. *)
Fixpoint first_date_line (search_lines : list string) : option string :=
  match search_lines with
  | [] => None
  | line :: rest =>
      if is_date_line line then Some line else first_date_line rest
  end.

Definition newline : ascii := "010"%char.

(** [text.strip().split('\n')] *)
Definition text_lines (text : string) : list string :=
  PyStr.split newline (PyStr.strip text).

Definition find_competition_date_line (text : string) : option string :=
  let lines := text_lines text in
  let search_lines := take 10 lines in
  first_date_line search_lines.

(** ** Document classifier *)

Definition infer_document_type (text : string) : string :=
  if PyStr.contains "Officials List" text then "Officials List"
  else if PyStr.contains "Starting Order" text then "Starting Order"
  else if PyStr.contains "Category Result Summary" text
       then "Category Result Summary"
  else if PyStr.contains "Element Score" text || PyStr.contains "Deductions" text
       then "Detail Sheets"
  else "Unknown".

(** ** Header assembler *)

(** The dictionary with the five fixed keys. *)
Record HeaderRecord := {
  CompetitionName : string;
  Location : string;
  DateRange : string;
  Event : string;
  DocumentType : string
}.

(** What [extract_header_info] hands back: [{}], a filled dictionary, or
    [None] when control falls off the end of the function. *)
Inductive header :=
  | EmptyDict
  | Dict (h : HeaderRecord)
  | PyNone.

Definition extract_detail_sheets_header_info
    (lines : list string) (document_type : string) : result HeaderRecord :=
  l0 ← PyList.getitem lines 0;
  l2 ← PyList.getitem lines 2;
  l1 ← PyList.getitem lines 1;
  l3 ← PyList.getitem lines 3;
  mret {| CompetitionName := PyStr.strip l0;
          Location := PyStr.strip l2;
          DateRange := PyStr.strip l1;
          Event := PyStr.strip l3;
          DocumentType := document_type |}.

Definition extract_event_sheets_header_info
    (lines : list string) (document_type : string) (date_line_index : Z)
    : result HeaderRecord :=
  let name := PyStr.strip (PyStr.join " " (PyList.slice_to lines (date_line_index - 1))) in
  loc ← PyList.getitem lines (date_line_index - 1);
  date ← PyList.getitem lines date_line_index;
  ev ← PyList.getitem lines (date_line_index + 1);
  mret {| CompetitionName := name;
          Location := PyStr.strip loc;
          DateRange := PyStr.strip date;
          Event := PyStr.strip ev;
          DocumentType := document_type |}.

(** [lines.index(date_line) if date_line in lines else -1] *)
Definition index_of_date_line (date_line : option string) (lines : list string) : Z :=
  match date_line with
  | Some d =>
      match PyList.index d lines with
      | Some i => Z.of_nat i
      | None => -1
      end
  | None => -1
  end.

Definition mem_string (x : string) (l : list string) : bool :=
  existsb (String.eqb x) l.

Definition extract_header_info (text : string) : result header :=
  let document_type := infer_document_type text in
  let lines := text_lines text in
  let date_line := find_competition_date_line text in
  let date_line_index := index_of_date_line date_line lines in
  if String.eqb document_type "Unknown" || (date_line_index =? -1) then
    Ret EmptyDict
  else if mem_string document_type
            ["Officials List"; "Starting Order"; "Result Summary"] then
    Dict <$> extract_event_sheets_header_info lines document_type date_line_index
  else if String.eqb document_type "Detail Sheets" then
    Dict <$> extract_detail_sheets_header_info lines document_type
  else Ret PyNone.

(** ** Python's [float(str)]

    The acceptance condition of CPython's [float] constructor on a [str]:
    whether it returns or raises [ValueError].  The parser's cap of 10^9
    significant digits is not modelled. *)

Module PyFloat.
Import PyStr.

(** The characters the C parser strips at both ends: ASCII white space,
    and the non-ASCII white space that was turned into a blank first. *)
Definition is_blank (c : ascii) : bool :=
  between 9 13 c || between 32 32 c || between 133 133 c || between 160 160 c.

(** Underscores may only stand between two decimal digits; they are
    removed.  [prev] is the character before [s], if any. *)
Fixpoint drop_underscores (prev : option ascii) (s : string) : option string :=
  match s with
  | EmptyString =>
      match prev with
      | Some c => if Ascii.eqb c "_" then None else Some EmptyString
      | None => Some EmptyString
      end
  | String c s' =>
      if Ascii.eqb c "_" then
        match prev with
        | Some p => if is_decimal p then drop_underscores (Some c) s' else None
        | None => None
        end
      else
        let after_underscore :=
          match prev with Some p => Ascii.eqb p "_" | None => false end in
        if after_underscore && negb (is_decimal c) then None
        else String c <$> drop_underscores (Some c) s'
  end.

Fixpoint lstrip_blank (s : string) : string :=
  match s with
  | EmptyString => EmptyString
  | String c s' => if is_blank c then lstrip_blank s' else s
  end.

Fixpoint rstrip_blank (s : string) : string :=
  match s with
  | EmptyString => EmptyString
  | String c s' =>
      match rstrip_blank s' with
      | EmptyString => if is_blank c then EmptyString else String c EmptyString
      | r => String c r
      end
  end.

(** Length of the longest prefix of decimal digits, and what follows it. *)
Fixpoint span_digits (s : string) : nat * string :=
  match s with
  | String c s' =>
      if is_decimal c then
        let '(n, rest) := span_digits s' in (S n, rest)
      else (0%nat, s)
  | EmptyString => (0%nat, EmptyString)
  end.

Definition skip_sign (s : string) : string :=
  match s with
  | String c s' => if Ascii.eqb c "+" || Ascii.eqb c "-" then s' else s
  | EmptyString => s
  end.

(** The decimal literal at the start of [s]: sign, digits, point, digits,
    at least one digit in all; an exponent is taken only when it has a
    digit.  [None] when no literal starts here, else the unread rest. *)
Definition parse_number (s : string) : option string :=
  let '(n1, s2) := span_digits (skip_sign s) in
  let '(n2, s3) :=
    match s2 with
    | String c r => if Ascii.eqb c "." then span_digits r else (0%nat, s2)
    | EmptyString => (0%nat, s2)
    end in
  if (n1 + n2 =? 0)%nat then None
  else
    match s3 with
    | String c r =>
        if Ascii.eqb c "e" || Ascii.eqb c "E" then
          let '(n3, s4) := span_digits (skip_sign r) in
          if (n3 =? 0)%nat then Some s3 else Some s4
        else Some s3
    | EmptyString => Some s3
    end.

(** ASCII lower-casing *)
Definition tolower (c : ascii) : ascii :=
  if between 65 90 c then ascii_of_N (code c + 32) else c.

Fixpoint ci_prefix (p s : string) : option string :=
  match p, s with
  | EmptyString, _ => Some s
  | String a p', String b s' =>
      if Ascii.eqb (tolower b) a then ci_prefix p' s' else None
  | String _ _, EmptyString => None
  end.

(** [inf], [infinity] or [nan] in any case, with an optional sign. *)
Definition parse_inf_or_nan (s : string) : option string :=
  let s1 := skip_sign s in
  match ci_prefix "inf" s1 with
  | Some r =>
      match ci_prefix "inity" r with
      | Some r' => Some r'
      | None => Some r
      end
  | None => ci_prefix "nan" s1
  end.

Definition is_empty (s : string) : bool :=
  match s with EmptyString => true | _ => false end.

(** [float(s)] returns (rather than raising [ValueError]). *)
Definition parses (s : string) : bool :=
  match drop_underscores None s with
  | None => false
  | Some t =>
      let u := rstrip_blank (lstrip_blank t) in
      if is_empty u then false
      else match parse_number u with
           | Some rest => is_empty rest
           | None =>
               match parse_inf_or_nan u with
               | Some rest => is_empty rest
               | None => false
               end
           end
  end.

End PyFloat.

(** ** Rank validity *)

Definition is_valid_rank (rank : string) : bool :=
  if PyStr.isdigit rank || String.eqb rank "WD" then true
  else PyFloat.parses rank.

(** ** pandas data frames

    A frame is a mutable object: the caller and the callee of
    [set_table_header] hold the same one.  Frames live in a store and code
    passes references to them. *)

Module Pandas.

(** A column label: the default integer labels of a fresh frame, or the
    cell values a header row was made of. *)
Inductive label :=
  | LInt (n : Z)
  | LStr (s : string).

Definition label_eqb (a b : label) : bool :=
  match a, b with
  | LInt m, LInt n => m =? n
  | LStr s, LStr t => String.eqb s t
  | _, _ => false
  end.

(** Column labels, and the rows in order, each with its index label. *)
Record DataFrame := {
  columns : list label;
  rows : list (Z * list string)
}.

Fixpoint number_rows (start : Z) (grid : list (list string))
    : list (Z * list string) :=
  match grid with
  | [] => []
  | row :: grid' => (start, row) :: number_rows (start + 1) grid'
  end.

(** [range(n)] *)
Definition range (n : Z) : list Z := Z.of_nat <$> seq 0 (Z.to_nat n).

(** The frame the table extractor builds from a rectangular grid of
    cells: integer labels on both axes. *)
Definition of_grid (grid : list (list string)) : DataFrame :=
  {| columns := LInt <$> range (Z.of_nat (length (hd [] grid)));
     rows := number_rows 0 grid |}.

Definition cells (f : DataFrame) : list (list string) := snd <$> rows f.
Definition index (f : DataFrame) : list Z := fst <$> rows f.

(** *** The store *)

Definition ref := nat.
Abbreviation heap := (list DataFrame).
Definition M (A : Type) : Type := heap -> result A * heap.

Definition ret {A} (a : A) : M A := fun h => (Ret a, h).
Definition bind {A B} (m : M A) (k : A -> M B) : M B := fun h =>
  match m h with
  | (Ret a, h') => k a h'
  | (Raise e, h') => (Raise e, h')
  end.
Definition lift {A} (r : result A) : M A := fun h => (r, h).

(** A reference outside the store is not something Python code can hold;
    reading through one is reported as [ReferenceError]. *)
Definition deref (r : ref) : M DataFrame := fun h =>
  match h !! r with
  | Some f => (Ret f, h)
  | None => (Raise ReferenceError, h)
  end.
Definition assign (r : ref) (f : DataFrame) : M unit := fun h =>
  (Ret tt, <[r := f]> h).
Definition alloc (f : DataFrame) : M ref := fun h =>
  (Ret (length h), h ++ [f]).

(** *** Frame operations *)

(** [row.astype(str).str.contains(keyword).any()] for a keyword without
    regular-expression metacharacters. *)
Definition row_contains (keyword : string) (row : list string) : bool :=
  existsb (PyStr.contains keyword) row.

(** [df.iloc[i]]: the row at a position. *)
Definition iloc (f : DataFrame) (i : Z) : result (list string) :=
  snd <$> PyList.getitem (rows f) i.

(** [df.drop(index=labels)]: a new frame without the rows so labelled;
    every label has to exist. *)
Definition drop_index (f : DataFrame) (labels : list Z) : result DataFrame :=
  if forallb (fun l => existsb (Z.eqb l) (index f)) labels then
    Ret {| columns := columns f;
           rows := List.filter
                     (fun r => negb (existsb (Z.eqb (fst r)) labels)) (rows f) |}
  else Raise KeyError.

(** [df.reset_index(drop=True)] *)
Definition reset_index (f : DataFrame) : DataFrame :=
  {| columns := columns f; rows := number_rows 0 (cells f) |}.

(** What [df[key]] is for a single label [key]. *)
Inductive selection :=
  | Series (values : list string)
  | SubFrame (f : DataFrame).

Fixpoint positions (key : label) (start : nat) (cols : list label) : list nat :=
  match cols with
  | [] => []
  | c :: cols' =>
      if label_eqb c key then start :: positions key (S start) cols'
      else positions key (S start) cols'
  end.

Definition cell (row : list string) (j : nat) : string := default "" (row !! j).

(** [df[key]]: [KeyError] without such a column, the column when there is
    one, a frame of all of them when the label is repeated. *)
Definition getitem_column (f : DataFrame) (key : label) : result selection :=
  match positions key 0 (columns f) with
  | [] => Raise KeyError
  | [j] => Ret (Series ((fun r => cell (snd r) j) <$> rows f))
  | js =>
      Ret (SubFrame
             {| columns := (fun _ => key) <$> js;
                rows := (fun r => (fst r, cell (snd r) <$> js)) <$> rows f |})
  end.

(** What [selection.apply(func)] hands to [df[...]]. *)
Inductive mask :=
  | BoolMask (keep : list bool)
  | EmptyObjects
  | FrameMask (f : DataFrame).

(** [df[mask]] for a Boolean series over the rows of [f]: the rows marked
    true, with their index labels. *)
Fixpoint select_rows (keep : list bool) (rs : list (Z * list string))
    : list (Z * list string) :=
  match keep, rs with
  | b :: keep', r :: rs' =>
      if b then r :: select_rows keep' rs' else select_rows keep' rs'
  | _, _ => []
  end.

End Pandas.

Import Pandas.
#[global] Instance M_ret : MRet M := @ret.
#[global] Instance M_bind : MBind M := fun _ _ k m => bind m k.

(** ** Table normaliser *)

(** The loop over [df.iterrows()]: the index label of the first row with a
    cell containing the keyword. *)
Fixpoint find_header_row (keyword : string) (rs : list (Z * list string))
    : option Z :=
  match rs with
  | [] => None
  | (i, row) :: rs' =>
      if row_contains keyword row then Some i
      else find_header_row keyword rs'
  end.

Definition set_table_header (df : ref) (header_keyword : string) : M ref :=
  f ← deref df;
  match find_header_row header_keyword (rows f) with
  | Some header_row_index =>
      (* df.columns = df.iloc[header_row_index] *)
      row ← lift (iloc f header_row_index);
      _ ← assign df {| columns := LStr <$> row; rows := rows f |};
      (* df = df.drop(index=range(header_row_index + 1)) *)
      f1 ← deref df;
      dropped ← lift (drop_index f1 (range (header_row_index + 1)));
      df' ← alloc dropped;
      (* df.reset_index(drop=True, inplace=True) *)
      _ ← assign df' (reset_index dropped);
      mret df'
  | None => mret df
  end.

Section Normaliser.

(** [frame.where(cond)] of pandas, reached only for a frame without rows
    whose header row named several columns "Rank"; it builds a new frame
    or raises, and what it does there is left open. *)
Variable frame_where : DataFrame -> DataFrame -> result DataFrame.

(** [selection.apply(is_valid_rank)]: element by element on a series (an
    empty series comes back as it is, not as Booleans); column by column
    on a frame, where [is_valid_rank] fails on the first column, a series
    having no [isdigit]; a frame without rows is copied without a call
    that counts. *)
Definition apply_is_valid_rank (sel : selection) : result mask :=
  match sel with
  | Series [] => Ret EmptyObjects
  | Series values => Ret (BoolMask (is_valid_rank <$> values))
  | SubFrame g =>
      match rows g with
      | [] => Ret (FrameMask g)
      | _ => Raise AttributeError
      end
  end.

(** [df[m]]: a new frame.  An empty series that is not Boolean selects
    columns, none of them. *)
Definition getitem_mask (f : DataFrame) (m : mask) : result DataFrame :=
  match m with
  | BoolMask keep =>
      Ret {| columns := columns f; rows := select_rows keep (rows f) |}
  | EmptyObjects =>
      Ret {| columns := []; rows := (fun r => (fst r, [])) <$> rows f |}
  | FrameMask g => frame_where f g
  end.

(** [df[df['Rank'].apply(is_valid_rank)]] *)
Definition filter_rank_rows (df : ref) : M ref :=
  f ← deref df;
  ranks ← lift (getitem_column f (LStr "Rank"));
  m ← lift (apply_is_valid_rank ranks);
  filtered ← lift (getitem_mask f m);
  alloc filtered.

Definition clean_results_table (extracted_df : ref) : M ref :=
  df ← set_table_header extracted_df "Rank";
  filter_rank_rows df.

End Normaliser.

(** One thing [frame.where] may do with a frame without rows: hand it back. *)
Definition where_keeps : DataFrame -> DataFrame -> result DataFrame :=
  fun f _ => Ret f.

(** ** Text of all pages *)

(** The truth value of what [page.extract_text()] returned: a text that is
    not empty. *)
Definition page_has_text (page_text : option string) : bool :=
  match page_text with
  | Some (String _ _) => true
  | _ => false
  end.

(** The loop of [extract_all_text] over the pages of the opened file, each
    given by what [page.extract_text()] returns for it: a text, or nothing. *)
Definition extract_all_text (pages : list (option string)) : string :=
  fold_left
    (fun all_text page_text =>
       if page_has_text page_text
       then all_text +:+ (default "" page_text +:+ String newline "")
       else all_text)
    pages "".

(** The texts of the pages that have one, in page order. *)
Definition page_texts (pages : list (option string)) : list string :=
  omap (fun page_text => if page_has_text page_text then page_text else None)
    pages.

(** ** Vocabulary of the specification *)

(** [sub] occurs in [s] somewhere: with any text before and after it. *)
Definition occurs_in (sub s : string) : Prop :=
  exists before after, s = before +:+ sub +:+ after.

Definition chars (s : string) : list ascii := list_ascii_of_string s.

(** A string "composed entirely of decimal digits": '0'..'9', at least one. *)
Definition decimal_digit_string (s : string) : Prop :=
  s <> "" /\ Forall (fun c => PyStr.is_decimal c = true) (chars s).

(** A string composed entirely of Unicode digits, which besides '0'..'9'
    are the superscript digits, at least one. *)
Definition digit_string (s : string) : Prop :=
  s <> "" /\ Forall (fun c => PyStr.is_digit c = true) (chars s).

(** The first row of a grid with a cell in which the keyword occurs. *)
Definition header_row_of (keyword : string) (grid : list (list string))
    : option (list string) :=
  List.find (row_contains keyword) grid.

(** The character before the position reached after reading [u], when
    [prev] was the character before [u]. *)
Fixpoint last_char (prev : option ascii) (u : string) : option ascii :=
  match u with
  | EmptyString => prev
  | String c u' => last_char (Some c) u'
  end.

(** [Matches r prev u rest]: the pattern [r] matches exactly the text [u],
    standing after the character [prev] and before the text [rest]. *)
Inductive Matches : re -> option ascii -> string -> string -> Prop :=
  | M_Eps prev rest : Matches Eps prev "" rest
  | M_Cls p c prev rest :
      p c = true -> Matches (Cls p) prev (String c "") rest
  | M_Seq a b prev u v rest :
      Matches a prev u (v +:+ rest) ->
      Matches b (last_char prev u) v rest ->
      Matches (Seq a b) prev (u +:+ v) rest
  | M_AltL a b prev u rest : Matches a prev u rest -> Matches (Alt a b) prev u rest
  | M_AltR a b prev u rest : Matches b prev u rest -> Matches (Alt a b) prev u rest
  | M_OptSome a prev u rest : Matches a prev u rest -> Matches (Opt a) prev u rest
  | M_OptNone a prev rest : Matches (Opt a) prev "" rest
  | M_WordB prev rest :
      xorb (word_at prev) (word_at (next_char rest)) = true ->
      Matches WordB prev "" rest.

(** The line has a substring the pattern matches. *)
Definition has_match (r : re) (line : string) : Prop :=
  exists before u rest,
    line = before +:+ u +:+ rest /\ Matches r (last_char None before) u rest.

(** The line holds a date expression of one of the two kinds. *)
Definition date_like (line : string) : Prop :=
  has_match written_month_pattern line \/ has_match numeric_range_pattern line.

(** The month names the written-month pattern knows, short and long. *)
Definition month_names : list string :=
  [ "Jan"; "January"; "Feb"; "February"; "Mar"; "March"; "Apr"; "April";
    "May"; "Jun"; "June"; "Jul"; "July"; "Aug"; "August"; "Sep"; "September";
    "Oct"; "October"; "Nov"; "November"; "Dec"; "December" ].

(** A date with one month name, one two-digit day and a four-digit year,
    and nothing that makes a range: "July 14, 2024". *)
Definition single_date (m : string) (d1 d2 y1 y2 y3 y4 : ascii) : string :=
  m +:+ " " +:+ String d1 (String d2 (", " +:+
    String y1 (String y2 (String y3 (String y4 ""))))).

(** A string without white space at either end. *)
Definition trimmed (s : string) : Prop :=
  (forall c rest, s = String c rest -> PyStr.is_space c = false)
  /\ (forall before c, s = before +:+ String c "" -> PyStr.is_space c = false).

(** The number of decimal digits in a string. *)
Fixpoint count_decimal (s : string) : nat :=
  match s with
  | EmptyString => 0%nat
  | String c s' =>
      if PyStr.is_decimal c then S (count_decimal s') else count_decimal s'
  end.

Definition all_ascii : list ascii := ascii_of_nat <$> seq 0 256.

(** The class holds decimal digits only. *)
Definition only_decimal (p : ascii -> bool) : bool :=
  forallb (fun c => implb (p c) (PyStr.is_decimal c)) all_ascii.

(** A number of decimal digits every text matched by the pattern has. *)
Fixpoint min_digits (r : re) : nat :=
  match r with
  | Eps | WordB | Opt _ => 0%nat
  | Cls p => if only_decimal p then 1%nat else 0%nat
  | Seq a b => (min_digits a + min_digits b)%nat
  | Alt a b => Nat.min (min_digits a) (min_digits b)
  end.

(** One or two decimal digits: a day or a month in figures. *)
Definition digits12 (s : string) : Prop :=
  (exists d, s = String d "" /\ PyStr.is_decimal d = true)
  \/ (exists d1 d2, s = String d1 (String d2 "")
        /\ PyStr.is_decimal d1 = true /\ PyStr.is_decimal d2 = true).

(** Four decimal digits: a year. *)
Definition digits4 (s : string) : Prop :=
  exists y1 y2 y3 y4,
    s = String y1 (String y2 (String y3 (String y4 "")))
    /\ PyStr.is_decimal y1 = true /\ PyStr.is_decimal y2 = true
    /\ PyStr.is_decimal y3 = true /\ PyStr.is_decimal y4 = true.

(** A date in figures: day, month and year with "-" or "/" between them. *)
Definition numeric_date (s : string) : Prop :=
  exists day sep1 month sep2 year,
    s = day +:+ sep1 +:+ month +:+ sep2 +:+ year
    /\ digits12 day /\ digits12 month /\ digits4 year
    /\ (sep1 = "-" \/ sep1 = "/") /\ (sep2 = "-" \/ sep2 = "/").

(** The text [before] does not end in a word character, so that a word
    starting after it starts at a word boundary. *)
Definition ends_word_free (before : string) : Prop :=
  word_at (last_char None before) = false.

(** The text [after] does not start with a word character. *)
Definition starts_word_free (after : string) : Prop :=
  word_at (next_char after) = false.

(** Characters that are no underscore, and no blank of the number parser. *)
Definition not_underscore (c : ascii) : bool := negb (Ascii.eqb c "_").
Definition not_blank (c : ascii) : bool := negb (PyFloat.is_blank c).

(** * Properties *)

(** ** Substring search *)

Lemma append_cons c (a b : string) : String c a +:+ b = String c (a +:+ b).
Proof. reflexivity. Qed.

Lemma append_nil (a : string) : "" +:+ a = a.
Proof. reflexivity. Qed.

Lemma prefix_spec p s :
  PyStr.prefix p s = true <-> exists after, s = p +:+ after.
Proof.
  revert s. induction p as [|a p IH]; intros s; simpl.
  - split; [intros _; by exists s | done].
  - destruct s as [|b s].
    + split; [done | intros [t Ht]; discriminate].
    + destruct (Ascii.eqb a b) eqn:E.
      * apply Ascii.eqb_eq in E as ->. rewrite IH.
        split; intros [t Ht]; exists t; rewrite ?append_cons in *; congruence.
      * split; [done | intros [t Ht]]. rewrite append_cons in Ht.
        injection Ht as -> _. by rewrite Ascii.eqb_refl in E.
Qed.

Lemma contains_prefix sub s :
  PyStr.prefix sub s = true -> PyStr.contains sub s = true.
Proof. intros H. destruct s; simpl; by rewrite H. Qed.

Lemma contains_cons sub c s :
  PyStr.contains sub s = true -> PyStr.contains sub (String c s) = true.
Proof.
  intros H. change (PyStr.contains sub (String c s))
    with (if PyStr.prefix sub (String c s) then true else PyStr.contains sub s).
  rewrite H. by destruct (PyStr.prefix _ _).
Qed.

Lemma contains_spec sub s :
  PyStr.contains sub s = true <-> occurs_in sub s.
Proof.
  split.
  - induction s as [|c s IH]; simpl.
    + destruct (PyStr.prefix sub "") eqn:E; [|done].
      intros _. apply prefix_spec in E as [t Ht]. by exists "", t.
    + destruct (PyStr.prefix sub (String c s)) eqn:E.
      * intros _. apply prefix_spec in E as [t Ht]. by exists "", t.
      * intros H. destruct (IH H) as (b & a & ->). by exists (String c b), a.
  - intros (b & a & ->). induction b as [|c b IH].
    + rewrite append_nil. apply contains_prefix, prefix_spec. by exists a.
    + rewrite append_cons. by apply contains_cons.
Qed.

Lemma contains_false sub s :
  PyStr.contains sub s = false <-> ~ occurs_in sub s.
Proof.
  rewrite <- contains_spec. by destruct (PyStr.contains sub s).
Qed.

(** ** Document classifier *)

(** C6: a text in which "Officials List" occurs, whatever precedes or
    follows it, is classified "Officials List"; the other types follow in
    the order Starting Order, Category Result Summary, Detail Sheets (on
    "Element Score" or "Deductions"), Unknown, each only when no marker of
    higher priority occurs. *)
Theorem infer_document_type_priority (text : string) :
  (forall before after,
      infer_document_type (before +:+ "Officials List" +:+ after)
      = "Officials List")
  /\ (occurs_in "Officials List" text ->
      infer_document_type text = "Officials List")
  /\ (~ occurs_in "Officials List" text ->
      occurs_in "Starting Order" text ->
      infer_document_type text = "Starting Order")
  /\ (~ occurs_in "Officials List" text ->
      ~ occurs_in "Starting Order" text ->
      occurs_in "Category Result Summary" text ->
      infer_document_type text = "Category Result Summary")
  /\ (~ occurs_in "Officials List" text ->
      ~ occurs_in "Starting Order" text ->
      ~ occurs_in "Category Result Summary" text ->
      occurs_in "Element Score" text \/ occurs_in "Deductions" text ->
      infer_document_type text = "Detail Sheets")
  /\ (~ occurs_in "Officials List" text ->
      ~ occurs_in "Starting Order" text ->
      ~ occurs_in "Category Result Summary" text ->
      ~ occurs_in "Element Score" text ->
      ~ occurs_in "Deductions" text ->
      infer_document_type text = "Unknown").
Proof.
  assert (forall t, occurs_in "Officials List" t ->
                    infer_document_type t = "Officials List") as OL.
  { intros t H. apply contains_spec in H. unfold infer_document_type.
    by rewrite H. }
  split; [intros b a; apply OL; by exists b, a|].
  split; [apply OL|].
  unfold infer_document_type.
  repeat split; intros;
    repeat match goal with
    | H : ~ occurs_in _ _ |- _ => apply contains_false in H; rewrite H
    | H : occurs_in _ _ |- _ => apply contains_spec in H; rewrite H
    | H : _ \/ _ |- _ => destruct H
    end; simpl; try done.
  by destruct (PyStr.contains "Element Score" text).
Qed.

(** A text with every marker in it, "Officials List" last. *)
Lemma infer_document_type_priority_witness :
  let text := "Deductions Element Score Category Result Summary Starting Order Officials List" in
  occurs_in "Officials List" text
  /\ occurs_in "Starting Order" text
  /\ infer_document_type text = "Officials List".
Proof.
  assert (occurs_in "Officials List"
            "Deductions Element Score Category Result Summary Starting Order Officials List") as H.
  { by exists "Deductions Element Score Category Result Summary Starting Order ", "". }
  split; [exact H|].
  split; [by exists "Deductions Element Score Category Result Summary ", " Officials List"|].
  exact (proj1 (proj2 (infer_document_type_priority _)) H).
Defined.

(** ** Date patterns *)

Lemma append_assoc (a b c : string) : (a +:+ b) +:+ c = a +:+ b +:+ c.
Proof. induction a as [|x a IH]; [done|]. rewrite !append_cons. by f_equal. Qed.

Lemma append_nil_r (a : string) : a +:+ "" = a.
Proof. induction a as [|x a IH]; [done|]. rewrite append_cons. by f_equal. Qed.

Lemma last_char_append prev u v :
  last_char prev (u +:+ v) = last_char (last_char prev u) v.
Proof. revert prev. induction u as [|c u IH]; intros prev; [done|apply IH]. Qed.

(** The matcher finds exactly the matches of the pattern: it accepts when
    some text the pattern matches is followed by something the
    continuation accepts. *)
Lemma matches_spec r k prev s :
  matches r k prev s = true
  <-> exists u rest,
        s = u +:+ rest /\ Matches r prev u rest /\ k (last_char prev u) rest = true.
Proof.
  revert k prev s. induction r as [|p|a IHa b IHb|a IHa b IHb|a IHa|];
    intros k prev s; simpl.
  - split.
    + intros H. exists "", s. repeat split; [constructor|done].
    + intros (u & rest & -> & HM & Hk). by inversion HM; subst.
  - destruct s as [|c s].
    + split; [done|]. intros (u & rest & Hs & HM & _). inversion HM; subst.
      discriminate.
    + destruct (p c) eqn:E.
      * split.
        -- intros H. exists (String c ""), s. repeat split; [by constructor|done].
        -- intros (u & rest & Hs & HM & Hk). inversion HM; subst.
           rewrite append_cons, append_nil in Hs. by injection Hs as -> ->.
      * split; [done|]. intros (u & rest & Hs & HM & _). inversion HM; subst.
        rewrite append_cons, append_nil in Hs. injection Hs as -> ->. congruence.
  - rewrite IHa. split.
    + intros (u & r1 & -> & Ha & Hb). apply IHb in Hb as (v & rest & -> & Hb & Hk).
      exists (u +:+ v), rest. rewrite append_assoc, last_char_append.
      repeat split; [|done]. by constructor.
    + intros (w & rest & -> & HM & Hk). inversion HM; subst.
      exists u, (v +:+ rest). rewrite append_assoc. repeat split; [done|].
      apply IHb. exists v, rest. by rewrite <- last_char_append.
  - destruct (matches a k prev s) eqn:Ea.
    + split; [intros _|done]. apply IHa in Ea as (u & rest & -> & Ha & Hk).
      exists u, rest. repeat split; [|done]. by apply M_AltL.
    + rewrite IHb. split.
      * intros (u & rest & -> & Hb & Hk). exists u, rest.
        repeat split; [|done]. by apply M_AltR.
      * intros (u & rest & -> & HM & Hk). inversion HM; subst.
        -- assert (matches a k prev (u +:+ rest) = true) as E
             by (apply IHa; by exists u, rest).
           congruence.
        -- by exists u, rest.
  - destruct (matches a k prev s) eqn:Ea.
    + split; [intros _|done]. apply IHa in Ea as (u & rest & -> & Ha & Hk).
      exists u, rest. repeat split; [|done]. by apply M_OptSome.
    + split.
      * intros Hk. exists "", s. repeat split; [apply M_OptNone|done].
      * intros (u & rest & -> & HM & Hk). inversion HM; subst; [|done].
        assert (matches a k prev (u +:+ rest) = true) as E
          by (apply IHa; by exists u, rest).
        congruence.
  - destruct (xorb (word_at prev) (word_at (next_char s))) eqn:E.
    + split.
      * intros Hk. exists "", s. repeat split; [by constructor|done].
      * intros (u & rest & -> & HM & Hk). by inversion HM; subst.
    + split; [done|]. intros (u & rest & -> & HM & Hk). inversion HM; subst.
      rewrite append_nil in E. congruence.
Qed.

Lemma search_from_spec r prev s :
  search_from r prev s = true
  <-> exists before u rest,
        s = before +:+ u +:+ rest /\ Matches r (last_char prev before) u rest.
Proof.
  revert prev. induction s as [|c s IH]; intros prev.
  - simpl. destruct (matches r accept prev "") eqn:E.
    + split; [intros _|done]. apply matches_spec in E as (u & rest & Hs & HM & _).
      by exists "", u, rest.
    + split; [done|]. intros (b & u & rest & Hs & HM).
      destruct b; [|discriminate]. rewrite append_nil in Hs.
      assert (matches r accept prev "" = true) as E'
        by (apply matches_spec; by exists u, rest).
      congruence.
  - change (search_from r prev (String c s))
      with (if matches r accept prev (String c s) then true
            else search_from r (Some c) s).
    destruct (matches r accept prev (String c s)) eqn:E.
    + split; [intros _|done]. apply matches_spec in E as (u & rest & Hs & HM & _).
      by exists "", u, rest.
    + rewrite IH. split.
      * intros (b & u & rest & -> & HM). by exists (String c b), u, rest.
      * intros (b & u & rest & Hs & HM). destruct b as [|c' b].
        -- rewrite append_nil in Hs.
           assert (matches r accept prev (String c s) = true) as E'
             by (apply matches_spec; by exists u, rest).
           congruence.
        -- rewrite append_cons in Hs. injection Hs as -> ->. by exists b, u, rest.
Qed.

Lemma search_spec r line : search r line = true <-> has_match r line.
Proof. apply search_from_spec. Qed.

Lemma is_date_line_spec line : is_date_line line = true <-> date_like line.
Proof.
  unfold is_date_line, date_like, date_patterns. simpl.
  rewrite <- !search_spec.
  destruct (search written_month_pattern line),
    (search numeric_range_pattern line); simpl; intuition congruence.
Qed.

Lemma is_date_line_false line : is_date_line line = false <-> ~ date_like line.
Proof.
  rewrite <- is_date_line_spec. by destruct (is_date_line line).
Qed.

Lemma lit_matches s prev rest : Matches (lit s) prev s rest.
Proof.
  revert prev. induction s as [|c s IH]; intros prev; simpl; [constructor|].
  apply (M_Seq _ _ _ (String c "") s).
  - constructor. apply Ascii.eqb_refl.
  - apply IH.
Qed.

Lemma seq_matches a b prev u v rest w :
  w = u +:+ v ->
  Matches a prev u (v +:+ rest) ->
  Matches b (last_char prev u) v rest ->
  Matches (Seq a b) prev w rest.
Proof. intros ->. apply M_Seq. Qed.

Lemma abbreviation_matches short long prev rest :
  Matches (Seq (lit short) (Opt (lit long))) prev short rest
  /\ Matches (Seq (lit short) (Opt (lit long))) prev (short +:+ long) rest.
Proof.
  split.
  - apply (seq_matches _ _ _ short "");
      [by rewrite append_nil_r | apply lit_matches | apply M_OptNone].
  - apply M_Seq; [apply lit_matches|]. apply M_OptSome, lit_matches.
Qed.

Lemma month_matches m prev rest : In m month_names -> Matches month prev m rest.
Proof.
  intros H. unfold month. simpl in H.
  repeat (destruct H as [<-|H];
          [ repeat first
              [ exact (lit_matches _ prev rest)
              | exact (proj1 (abbreviation_matches _ _ prev rest))
              | exact (proj2 (abbreviation_matches _ _ prev rest))
              | apply M_AltL;
                first [ exact (lit_matches _ prev rest)
                      | exact (proj1 (abbreviation_matches _ _ prev rest))
                      | exact (proj2 (abbreviation_matches _ _ prev rest)) ]
              | apply M_AltR ] | ]).
  destruct H.
Qed.

Lemma month_starts_with_letter m :
  In m month_names -> word_at (next_char m) = true.
Proof.
  intros H. simpl in H.
  repeat (destruct H as [<-|H]; [reflexivity|]). destruct H.
Qed.

Lemma next_char_append m s :
  m <> "" -> next_char (m +:+ s) = next_char m.
Proof. by destruct m. Qed.

(** What follows the first month name in a single date: a blank, a digit
    for the first [\d{1,2}], every optional part left out, a digit for the
    second [\d{1,2}], a comma, a blank and the year. *)
Lemma single_date_tail_matches prev d1 d2 y1 y2 y3 y4 :
  PyStr.is_decimal d1 = true -> PyStr.is_decimal d2 = true ->
  PyStr.is_decimal y1 = true -> PyStr.is_decimal y2 = true ->
  PyStr.is_decimal y3 = true -> PyStr.is_decimal y4 = true ->
  Matches
    (seqs [ s_; d12; Opt (lit "-"); Opt s_; Opt to_or_dash; Opt s_;
            Opt month; Opt s_; d12; Opt (lit ","); s_; d4 ])
    prev
    (" " +:+ String d1 (String d2 (", " +:+
       String y1 (String y2 (String y3 (String y4 ""))))))
    "".
Proof.
  intros H1 H2 H3 H4 H5 H6. simpl seqs.
  eapply (seq_matches _ _ _ " "); [reflexivity|by constructor|].
  eapply (seq_matches _ _ _ (String d1 "")); [reflexivity| |].
  { eapply (seq_matches _ _ _ (String d1 "") ""); [reflexivity|by constructor|].
    apply M_OptNone. }
  do 6 (eapply (seq_matches _ _ _ ""); [reflexivity|apply M_OptNone|]).
  eapply (seq_matches _ _ _ (String d2 "")); [reflexivity| |].
  { eapply (seq_matches _ _ _ (String d2 "") ""); [reflexivity|by constructor|].
    apply M_OptNone. }
  eapply (seq_matches _ _ _ ",");
    [reflexivity | apply M_OptSome; exact (lit_matches "," _ _) |].
  eapply (seq_matches _ _ _ " "); [reflexivity|by constructor|].
  unfold d4. simpl seqs.
  eapply (seq_matches _ _ _ (String y1 "")); [reflexivity|by constructor|].
  eapply (seq_matches _ _ _ (String y2 "")); [reflexivity|by constructor|].
  eapply (seq_matches _ _ _ (String y3 "")); [reflexivity|by constructor|].
  by constructor.
Qed.

(** Every single date is matched by the written-month pattern. *)
Lemma single_date_matches m d1 d2 y1 y2 y3 y4 :
  In m month_names ->
  PyStr.is_decimal d1 = true -> PyStr.is_decimal d2 = true ->
  PyStr.is_decimal y1 = true -> PyStr.is_decimal y2 = true ->
  PyStr.is_decimal y3 = true -> PyStr.is_decimal y4 = true ->
  Matches written_month_pattern None (single_date m d1 d2 y1 y2 y3 y4) "".
Proof.
  intros Hm H1 H2 H3 H4 H5 H6. unfold written_month_pattern, single_date.
  change (seqs (WordB :: month :: ?l)) with (Seq WordB (Seq month (seqs l))).
  eapply (seq_matches _ _ _ ""); [reflexivity| |].
  - constructor. rewrite append_nil_r, next_char_append.
    + apply (month_starts_with_letter _ Hm).
    + intros ->. by apply month_starts_with_letter in Hm.
  - apply M_Seq; [by apply month_matches|].
    by apply single_date_tail_matches.
Qed.

(** ** Date-line locator *)

Lemma first_date_line_None ls :
  (forall i l, ls !! i = Some l -> is_date_line l = false) ->
  first_date_line ls = None.
Proof.
  induction ls as [|x ls IH]; intros H; simpl; [done|].
  rewrite (H 0%nat x eq_refl). apply IH. intros i l Hi. by apply (H (S i)).
Qed.

Lemma first_date_line_Some ls d :
  first_date_line ls = Some d ->
  exists i : nat,
    ls !! i = Some d /\ is_date_line d = true
    /\ forall (j : nat) l, (j < i)%nat -> ls !! j = Some l -> is_date_line l = false.
Proof.
  induction ls as [|x ls IH]; simpl; [done|].
  destruct (is_date_line x) eqn:E.
  - intros [= ->]. exists 0%nat. repeat split; [done|]. intros j l Hj. lia.
  - intros H. destruct (IH H) as (i & Hi & Hd & Hlt). exists (S i).
    repeat split; [done..|]. intros [|j] l Hj; simpl.
    + by intros [= <-].
    + apply Hlt. lia.
Qed.

Lemma first_date_line_first ls (i : nat) d :
  ls !! i = Some d -> is_date_line d = true ->
  (forall (j : nat) l, (j < i)%nat -> ls !! j = Some l -> is_date_line l = false) ->
  first_date_line ls = Some d.
Proof.
  revert i. induction ls as [|x ls IH]; intros i Hi Hd Hlt; [done|].
  destruct i as [|i]; simpl in *.
  - injection Hi as ->. by rewrite Hd.
  - rewrite (Hlt 0%nat x); [|lia|done]. apply (IH i); [done..|].
    intros j l Hj. apply (Hlt (S j)). lia.
Qed.

Lemma index_first (ls : list string) (i : nat) d :
  ls !! i = Some d ->
  (forall (j : nat), (j < i)%nat -> ls !! j <> Some d) ->
  PyList.index d ls = Some i.
Proof.
  revert i. induction ls as [|x ls IH]; intros i Hi Hlt; [done|].
  destruct i as [|i]; simpl in *.
  - injection Hi as ->. by rewrite String.eqb_refl.
  - destruct (String.eqb x d) eqn:E.
    + apply String.eqb_eq in E as ->. by destruct (Hlt 0%nat ltac:(lia)).
    + rewrite (IH i); [done..|]. intros j Hj. apply (Hlt (S j)). lia.
Qed.

(** A line the locator returns is the topmost date line, inside the
    window, and [lines.index] finds it where it stands. *)
Lemma find_competition_date_line_Some text d :
  find_competition_date_line text = Some d ->
  exists i : nat,
    text_lines text !! i = Some d
    /\ (i < Nat.min 10 (length (text_lines text)))%nat
    /\ is_date_line d = true
    /\ (forall (j : nat) l, (j < i)%nat -> text_lines text !! j = Some l ->
                            is_date_line l = false)
    /\ index_of_date_line (Some d) (text_lines text) = Z.of_nat i.
Proof.
  unfold find_competition_date_line.
  intros H. apply first_date_line_Some in H as (i & Hi & Hd & Hlt).
  apply lookup_take_Some in Hi as [Hi Hi10].
  assert (forall (j : nat) l, (j < i)%nat -> text_lines text !! j = Some l ->
                              is_date_line l = false) as Hbefore.
  { intros j l Hj Hl. apply (Hlt j); [done|].
    apply lookup_take_Some. split; [done|lia]. }
  exists i. repeat split; try done.
  - apply lookup_lt_Some in Hi. lia.
  - unfold index_of_date_line. rewrite (index_first _ i); [done..|].
    intros j Hj Hjd. specialize (Hbefore j d Hj Hjd). congruence.
Qed.

(** C7: when none of the first ten lines has a substring matched by one of
    the two date patterns, the locator returns nothing; a line it returns
    is the topmost line with such a substring, stands at an index below
    min(10, line count), which is also the index the header extraction
    computes for it; and lines from index 10 on have no influence on the
    result. *)
Theorem find_competition_date_line_window (text : string) :
  ((forall (i : nat) l, (i < 10)%nat -> text_lines text !! i = Some l ->
                        ~ date_like l) ->
   find_competition_date_line text = None)
  /\ (forall d, find_competition_date_line text = Some d ->
      exists i : nat,
        text_lines text !! i = Some d
        /\ (i < Nat.min 10 (length (text_lines text)))%nat
        /\ date_like d
        /\ (forall (j : nat) l, (j < i)%nat -> text_lines text !! j = Some l ->
                                ~ date_like l)
        /\ index_of_date_line (Some d) (text_lines text) = Z.of_nat i)
  /\ (forall text',
      take 10 (text_lines text') = take 10 (text_lines text) ->
      find_competition_date_line text' = find_competition_date_line text).
Proof.
  split; [|split].
  - unfold find_competition_date_line.
    intros H. apply first_date_line_None. intros i l Hi.
    apply lookup_take_Some in Hi as [Hi Hlt].
    apply is_date_line_false. by apply (H i).
  - intros d Hd.
    destruct (find_competition_date_line_Some _ _ Hd)
      as (i & Hi & Hlt & Hdate & Hbefore & Hidx).
    exists i. repeat split; try done.
    + by apply is_date_line_spec.
    + intros j l Hj Hl. apply is_date_line_false. by apply (Hbefore j).
  - unfold find_competition_date_line. intros text' H. by rewrite H.
Qed.

Lemma find_competition_date_line_window_witness :
  let text := "Spring Classic
Toronto, ON
July 14-16, 2024
Senior Women Free Skate" in
  find_competition_date_line text = Some "July 14-16, 2024"
  /\ exists i : nat,
      text_lines text !! i = Some "July 14-16, 2024"
      /\ (i < Nat.min 10 (length (text_lines text)))%nat
      /\ date_like "July 14-16, 2024"
      /\ (forall (j : nat) l, (j < i)%nat -> text_lines text !! j = Some l ->
                              ~ date_like l)
      /\ index_of_date_line (Some "July 14-16, 2024") (text_lines text)
         = Z.of_nat i.
Proof.
  intros text.
  assert (find_competition_date_line text = Some "July 14-16, 2024") as H
    by reflexivity.
  split; [exact H|].
  exact (proj1 (proj2 (find_competition_date_line_window text)) _ H).
Defined.

(** A date line in the window that no date line precedes is the one the
    locator returns. *)
Lemma find_competition_date_line_topmost text (i : nat) d :
  (i < 10)%nat ->
  text_lines text !! i = Some d ->
  is_date_line d = true ->
  (forall (j : nat) l, (j < i)%nat -> text_lines text !! j = Some l ->
                       is_date_line l = false) ->
  find_competition_date_line text = Some d.
Proof.
  intros Hi Hd Hdate Hbefore. unfold find_competition_date_line.
  apply (first_date_line_first _ i); [|done|].
  - apply lookup_take_Some. by split.
  - intros j l Hj Hl. apply lookup_take_Some in Hl as [Hl _]. by apply (Hbefore j).
Qed.

(** C8: a line made of one month name, one two-digit day and a four-digit
    year, with nothing of a range in it, such as "July 14, 2024", is
    matched by the written-month pattern, and the locator returns it
    wherever it stands among the first ten lines below lines without a
    date. *)
Theorem single_date_is_located :
  single_date "July" "1" "4" "2" "0" "2" "4" = "July 14, 2024"
  /\ forall m d1 d2 y1 y2 y3 y4,
      In m month_names ->
      PyStr.is_decimal d1 = true -> PyStr.is_decimal d2 = true ->
      PyStr.is_decimal y1 = true -> PyStr.is_decimal y2 = true ->
      PyStr.is_decimal y3 = true -> PyStr.is_decimal y4 = true ->
      search written_month_pattern (single_date m d1 d2 y1 y2 y3 y4) = true
      /\ forall text (i : nat),
          (i < 10)%nat ->
          text_lines text !! i = Some (single_date m d1 d2 y1 y2 y3 y4) ->
          (forall (j : nat) l, (j < i)%nat -> text_lines text !! j = Some l ->
                               ~ date_like l) ->
          find_competition_date_line text
          = Some (single_date m d1 d2 y1 y2 y3 y4).
Proof.
  split; [reflexivity|]. intros m d1 d2 y1 y2 y3 y4 Hm H1 H2 H3 H4 H5 H6.
  assert (has_match written_month_pattern (single_date m d1 d2 y1 y2 y3 y4))
    as Hmatch.
  { exists "", (single_date m d1 d2 y1 y2 y3 y4), "".
    split; [by rewrite append_nil_r|]. by apply single_date_matches. }
  split; [by apply search_spec|]. intros text i Hi Hd Hbefore.
  apply (find_competition_date_line_topmost text i); [done..| |].
  - apply is_date_line_spec. by left.
  - intros j l Hj Hl. apply is_date_line_false. by apply (Hbefore j).
Qed.

Lemma single_date_is_located_witness :
  find_competition_date_line "Autumn Leaves Invitational
Kelowna, BC
July 14, 2024
Juvenile Men" = Some "July 14, 2024".
Proof.
  refine (proj2 (proj2 single_date_is_located "July" "1"%char "4"%char
                   "2"%char "0"%char "2"%char "4"%char
                   _ eq_refl eq_refl eq_refl eq_refl eq_refl eq_refl)
            "Autumn Leaves Invitational
Kelowna, BC
July 14, 2024
Juvenile Men" 2%nat _ eq_refl _).
  - simpl. tauto.
  - lia.
  - intros [|[|j]] l Hj; [| |lia]; intros [= <-]; by apply is_date_line_false.
Defined.

Example single_digit_day_not_matched : is_date_line "July 4, 2024" = false.
Proof. reflexivity. Qed.

Example date_range_examples :
  is_date_line "July 14-16, 2024" = true
  /\ is_date_line "Jun 28 - Jul 1, 2024" = true
  /\ is_date_line "14/07/2024 to 16/07/2024" = true
  /\ is_date_line "Toronto, ON" = false.
Proof. by repeat split. Qed.

(** ** Header assembler *)

Lemma getitem_nonneg {A} (l : list A) (i : Z) x :
  0 <= i -> l !! Z.to_nat i = Some x -> PyList.getitem l i = Ret x.
Proof.
  intros Hi H. unfold PyList.getitem.
  pose proof (lookup_lt_Some _ _ _ H) as Hlt.
  assert ((i <? 0) = false) as E1 by (apply Z.ltb_ge; lia).
  assert ((Z.of_nat (length l) <=? i) = false) as E2 by (apply Z.leb_gt; lia).
  rewrite E1. cbv zeta. rewrite E1, E2. simpl. by rewrite H.
Qed.

Lemma getitem_lookup {A} (l : list A) (i : nat) x :
  l !! i = Some x -> PyList.getitem l (Z.of_nat i) = Ret x.
Proof. intros H. apply getitem_nonneg; [lia|]. by rewrite Nat2Z.id. Qed.

Lemma slice_to_take {A} (l : list A) (k : nat) :
  PyList.slice_to l (Z.of_nat k) = take k l.
Proof.
  unfold PyList.slice_to. assert ((Z.of_nat k <? 0) = false) as ->
    by (apply Z.ltb_ge; lia).
  by rewrite Nat2Z.id.
Qed.

(** A document typed "Category Result Summary" in which a date line was
    found matches no branch of [extract_header_info]: the list of sheet
    types spells it "Result Summary". *)
Lemma extract_header_info_category_result_summary text d :
  infer_document_type text = "Category Result Summary" ->
  find_competition_date_line text = Some d ->
  extract_header_info text = Ret PyNone.
Proof.
  intros Ht Hd. unfold extract_header_info. rewrite Ht, Hd.
  destruct (find_competition_date_line_Some _ _ Hd) as (i & _ & _ & _ & _ & ->).
  assert ((Z.of_nat i =? -1) = false) as ->
      by (apply Z.eqb_neq; lia). reflexivity.
Qed.

(** C1: a Category Result Summary with its date line at index 2 gets no
    header at all: the call hands back [None], not the record of the
    event-sheet layout. *)
Theorem category_result_summary_header_is_none :
  let text := "Spring Classic
Toronto, ON
July 14-16, 2024
Senior Women Free Skate
Category Result Summary" in
  infer_document_type text = "Category Result Summary"
  /\ find_competition_date_line text = Some "July 14-16, 2024"
  /\ text_lines text !! 2%nat = Some "July 14-16, 2024"
  /\ extract_header_info text = Ret PyNone
  /\ extract_event_sheets_header_info (text_lines text)
       "Category Result Summary" 2
     = Ret {| CompetitionName := "Spring Classic";
              Location := "Toronto, ON";
              DateRange := "July 14-16, 2024";
              Event := "Senior Women Free Skate";
              DocumentType := "Category Result Summary" |}.
Proof. by repeat split. Qed.

Lemma extract_detail_sheets_header_info_positional l0 l1 l2 l3 rest document_type :
  extract_detail_sheets_header_info (l0 :: l1 :: l2 :: l3 :: rest) document_type
  = Ret {| CompetitionName := PyStr.strip l0;
           Location := PyStr.strip l2;
           DateRange := PyStr.strip l1;
           Event := PyStr.strip l3;
           DocumentType := document_type |}.
Proof.
  unfold extract_detail_sheets_header_info.
  set (lines := l0 :: l1 :: l2 :: l3 :: rest).
  rewrite (getitem_nonneg lines 0 l0), (getitem_nonneg lines 2 l2),
    (getitem_nonneg lines 1 l1), (getitem_nonneg lines 3 l3);
    done || lia.
Qed.

(** C2, as the code has it: for a Detail Sheets document of at least four
    lines, the header is the positional record (fields trimmed) when a date
    line was found among the first ten lines, and the empty dictionary when
    none was. *)
Theorem detail_sheets_header text l0 l1 l2 l3 rest :
  infer_document_type text = "Detail Sheets" ->
  text_lines text = l0 :: l1 :: l2 :: l3 :: rest ->
  (forall d, find_competition_date_line text = Some d ->
      extract_header_info text
      = Ret (Dict {| CompetitionName := PyStr.strip l0;
                     Location := PyStr.strip l2;
                     DateRange := PyStr.strip l1;
                     Event := PyStr.strip l3;
                     DocumentType := "Detail Sheets" |}))
  /\ (find_competition_date_line text = None ->
      extract_header_info text = Ret EmptyDict).
Proof.
  intros Ht Hl. split.
  - intros d Hd. unfold extract_header_info. rewrite Ht, Hd.
    destruct (find_competition_date_line_Some _ _ Hd) as (i & _ & _ & _ & _ & ->).
    assert ((Z.of_nat i =? -1) = false) as ->
      by (apply Z.eqb_neq; lia).
    rewrite Hl. simpl.
    by rewrite extract_detail_sheets_header_info_positional.
  - intros Hd. unfold extract_header_info. by rewrite Ht, Hd.
Qed.

Lemma detail_sheets_header_witness :
  extract_header_info "Spring Classic
July 14-16, 2024
Toronto, ON
Senior Women Free Skate
Element Score"
  = Ret (Dict {| CompetitionName := "Spring Classic";
                 Location := "Toronto, ON";
                 DateRange := "July 14-16, 2024";
                 Event := "Senior Women Free Skate";
                 DocumentType := "Detail Sheets" |}).
Proof.
  refine (proj1 (detail_sheets_header _ "Spring Classic" "July 14-16, 2024"
                   "Toronto, ON" "Senior Women Free Skate" ["Element Score"]
                   _ _) "July 14-16, 2024" _); reflexivity.
Defined.

(** C2 as stated fails: a Detail Sheets document of five lines without a
    date line gets the empty dictionary, not the positional record. *)
Lemma detail_sheets_header_needs_date_line :
  let text := "Spring Classic
Summer 2024
Toronto, ON
Senior Women Free Skate
Element Score" in
  infer_document_type text = "Detail Sheets"
  /\ text_lines text = ["Spring Classic"; "Summer 2024"; "Toronto, ON";
                        "Senior Women Free Skate"; "Element Score"]
  /\ find_competition_date_line text = None
  /\ extract_header_info text = Ret EmptyDict
  /\ extract_header_info text
     <> Ret (Dict {| CompetitionName := "Spring Classic";
                     Location := "Toronto, ON";
                     DateRange := "Summer 2024";
                     Event := "Senior Women Free Skate";
                     DocumentType := "Detail Sheets" |}).
Proof. by repeat split. Qed.

(** C5, as the code has it: with the date line at index i >= 1 and the
    lines i-1, i and i+1 present, Location, DateRange and Event are those
    lines trimmed at both ends, and CompetitionName is the lines before
    index i-1 joined by blanks and then trimmed at both ends. *)
Theorem event_sheets_header lines document_type (i : nat) loc date ev :
  (1 <= i)%nat ->
  lines !! (i - 1)%nat = Some loc ->
  lines !! i = Some date ->
  lines !! (i + 1)%nat = Some ev ->
  extract_event_sheets_header_info lines document_type (Z.of_nat i)
  = Ret {| CompetitionName := PyStr.strip (PyStr.join " " (take (i - 1) lines));
           Location := PyStr.strip loc;
           DateRange := PyStr.strip date;
           Event := PyStr.strip ev;
           DocumentType := document_type |}.
Proof.
  intros Hi Hloc Hdate Hev. unfold extract_event_sheets_header_info.
  replace (Z.of_nat i - 1) with (Z.of_nat (i - 1)) by lia.
  replace (Z.of_nat i + 1) with (Z.of_nat (i + 1)) by lia.
  rewrite slice_to_take.
  by rewrite (getitem_lookup _ _ _ Hloc), (getitem_lookup _ _ _ Hdate),
    (getitem_lookup _ _ _ Hev).
Qed.

Lemma event_sheets_header_witness :
  extract_event_sheets_header_info
    ["Spring Classic"; "Toronto, ON"; "July 14-16, 2024";
     "Senior Women Free Skate"; "Starting Order"] "Starting Order" 2
  = Ret {| CompetitionName := "Spring Classic";
           Location := "Toronto, ON";
           DateRange := "July 14-16, 2024";
           Event := "Senior Women Free Skate";
           DocumentType := "Starting Order" |}.
Proof.
  exact (event_sheets_header
           ["Spring Classic"; "Toronto, ON"; "July 14-16, 2024";
            "Senior Women Free Skate"; "Starting Order"]
           "Starting Order" 2 "Toronto, ON" "July 14-16, 2024"
           "Senior Women Free Skate" (le_S _ _ (le_n 1)) eq_refl eq_refl eq_refl).
Defined.

(** C5 as stated fails twice.  The name is trimmed after joining: a title
    line ending in a blank does not come back as it was joined.  And with
    the date line at index 0 there is no line i-1 and no line before it, yet
    the header takes the last line of the document as Location and every
    line but the last as CompetitionName. *)
Lemma event_sheets_header_not_verbatim :
  (let text := "Spring Classic 
Toronto, ON
July 14-16, 2024
Senior Women Free Skate
Starting Order" in
   index_of_date_line (find_competition_date_line text) (text_lines text) = 2
   /\ PyStr.join " " (take 1 (text_lines text)) = "Spring Classic "
   /\ exists h, extract_header_info text = Ret (Dict h)
        /\ CompetitionName h = "Spring Classic"
        /\ CompetitionName h <> PyStr.join " " (take 1 (text_lines text)))
  /\
  (let text := "July 14-16, 2024
Senior Women Free Skate
Starting Order" in
   index_of_date_line (find_competition_date_line text) (text_lines text) = 0
   /\ exists h, extract_header_info text = Ret (Dict h)
        /\ Location h = "Starting Order"
        /\ CompetitionName h = "July 14-16, 2024 Senior Women Free Skate"
        /\ CompetitionName h <> PyStr.join " " []).
Proof.
  split.
  - repeat split. eexists. by repeat split.
  - repeat split. eexists. by repeat split.
Qed.

(** ** Rank validity *)

Lemma all_chars_Forall p s :
  PyStr.all_chars p s = true <-> Forall (fun c => p c = true) (chars s).
Proof.
  induction s as [|c s IH]; simpl.
  - split; [constructor|done].
  - destruct (p c) eqn:E.
    + rewrite IH. split; [by constructor|by inversion 1].
    + split; [done|]. inversion 1; congruence.
Qed.

Lemma isdigit_spec s : PyStr.isdigit s = true <-> digit_string s.
Proof.
  unfold digit_string. rewrite <- all_chars_Forall. destruct s; simpl.
  - split; [done|]. by intros [? _].
  - split; [by split|]. by intros [_ ?].
Qed.

Lemma decimal_not_special c :
  PyStr.is_decimal c = true ->
  Ascii.eqb c "_" = false /\ PyFloat.is_blank c = false
  /\ (Ascii.eqb c "+" || Ascii.eqb c "-") = false.
Proof.
  destruct c as [[] [] [] [] [] [] [] []]; try discriminate; by repeat split.
Qed.

Lemma drop_underscores_decimal s prev :
  PyStr.all_chars PyStr.is_decimal s = true ->
  match prev with Some p => s <> "" \/ Ascii.eqb p "_" = false | None => True end ->
  PyFloat.drop_underscores prev s = Some s.
Proof.
  revert prev. induction s as [|c s IH]; intros prev Hs Hp; simpl in *.
  - destruct prev as [p|]; [|done]. destruct Hp as [? | ->]; done.
  - destruct (PyStr.is_decimal c) eqn:Hc; [|done].
    destruct (decimal_not_special c Hc) as (-> & _ & _).
    rewrite andb_false_r. rewrite (IH (Some c)); [done..|].
    right. by destruct (decimal_not_special c Hc).
Qed.

Lemma rstrip_blank_decimal s :
  PyStr.all_chars PyStr.is_decimal s = true -> PyFloat.rstrip_blank s = s.
Proof.
  induction s as [|c s IH]; simpl; [done|].
  destruct (PyStr.is_decimal c) eqn:Hc; [|done]. intros Hs.
  rewrite (IH Hs). destruct s; [|done].
  by destruct (decimal_not_special c Hc) as (_ & -> & _).
Qed.

Lemma span_digits_decimal s :
  PyStr.all_chars PyStr.is_decimal s = true ->
  PyFloat.span_digits s = (String.length s, "").
Proof.
  induction s as [|c s IH]; simpl; [done|].
  destruct (PyStr.is_decimal c) eqn:Hc; [|done]. intros Hs. by rewrite (IH Hs).
Qed.

(** Every string of decimal digits is one [float] accepts: of the strings
    [isdigit] accepts, only those with a superscript digit are accepted on
    that ground alone. *)
Lemma decimal_digit_string_parses s :
  decimal_digit_string s -> PyFloat.parses s = true.
Proof.
  intros [Hne Hs]. apply all_chars_Forall in Hs. unfold PyFloat.parses.
  rewrite drop_underscores_decimal; [|done..].
  destruct s as [|c s]; [done|].
  assert (PyStr.is_decimal c = true) as Hc
    by (simpl in Hs; by destruct (PyStr.is_decimal c)).
  destruct (decimal_not_special c Hc) as (_ & Hb & Hsign).
  assert (PyFloat.lstrip_blank (String c s) = String c s) as ->
    by (simpl; by rewrite Hb).
  rewrite (rstrip_blank_decimal _ Hs). simpl PyFloat.is_empty. cbv iota.
  unfold PyFloat.parse_number.
  assert (PyFloat.skip_sign (String c s) = String c s) as ->
    by (simpl; by rewrite Hsign).
  by rewrite (span_digits_decimal _ Hs).
Qed.

(** C9, as the code has it: "5", "WD" and "5.5" are valid, "DNS" and the
    empty string are not; the valid ranks are exactly the non-empty strings
    of Unicode digits (the decimal digits and also the superscript digits),
    the string "WD", and the strings [float] parses. *)
Theorem is_valid_rank_spec :
  is_valid_rank "5" = true
  /\ is_valid_rank "WD" = true
  /\ is_valid_rank "5.5" = true
  /\ is_valid_rank "DNS" = false
  /\ is_valid_rank "" = false
  /\ forall rank,
      is_valid_rank rank = true
      <-> digit_string rank \/ rank = "WD" \/ PyFloat.parses rank = true.
Proof.
  do 5 (split; [reflexivity|]). intros rank. unfold is_valid_rank.
  rewrite <- isdigit_spec, <- String.eqb_eq.
  destruct (PyStr.isdigit rank), (String.eqb rank "WD"); simpl;
    intuition congruence.
Qed.

(** C9 as stated fails: the superscript two is a valid rank, though it is
    neither a string of decimal digits, nor "WD", nor something [float]
    parses. *)
Lemma is_valid_rank_superscript :
  let rank := String "178"%char "" in
  is_valid_rank rank = true
  /\ ~ decimal_digit_string rank
  /\ rank <> "WD"
  /\ PyFloat.parses rank = false.
Proof.
  repeat split; try done.
  intros [_ H]. inversion H as [|c l Hc Hl]; subst. discriminate.
Qed.

(** ** Table normaliser *)

(** *** Raw frames *)

Lemma number_rows_lookup grid (i : nat) row start :
  grid !! i = Some row ->
  number_rows start grid !! i = Some (start + Z.of_nat i, row).
Proof.
  revert i start. induction grid as [|r grid IH]; intros i start H; [done|].
  destruct i as [|i]; simpl in *.
  - injection H as ->. do 2 f_equal. lia.
  - rewrite (IH i (start + 1) H). do 2 f_equal. lia.
Qed.

Lemma number_rows_cells grid start : snd <$> number_rows start grid = grid.
Proof.
  revert start. induction grid as [|r grid IH]; intros start; simpl; [done|].
  by rewrite IH.
Qed.

Lemma number_rows_labels grid start l :
  existsb (Z.eqb l) (fst <$> number_rows start grid)
  = (start <=? l) && (l <? start + Z.of_nat (length grid)).
Proof.
  revert start. induction grid as [|r grid IH]; intros start; simpl.
  - apply eq_sym, andb_false_iff.
    destruct (Z.leb_spec start l); [right; apply Z.ltb_ge; lia | by left].
  - rewrite IH.
    destruct (Z.eqb_spec l start), (Z.leb_spec (start + 1) l),
      (Z.leb_spec start l),
      (Z.ltb_spec l (start + 1 + Z.of_nat (length grid))),
      (Z.ltb_spec l (start + Z.of_nat (S (length grid))));
      simpl; try reflexivity; lia.
Qed.

Lemma range_labels n l : existsb (Z.eqb l) (range n) = (0 <=? l) && (l <? n).
Proof.
  unfold range.
  assert (forall (m k : nat),
            existsb (Z.eqb l) (Z.of_nat <$> seq k m)
            = (Z.of_nat k <=? l) && (l <? Z.of_nat (k + m))) as H.
  { induction m as [|m IH]; intros k; simpl.
    - apply eq_sym, andb_false_iff.
      destruct (Z.leb_spec (Z.of_nat k) l); [right; apply Z.ltb_ge; lia | by left].
    - rewrite IH.
      destruct (Z.eqb_spec l (Z.of_nat k)), (Z.leb_spec (Z.of_nat (S k)) l),
        (Z.leb_spec (Z.of_nat k) l), (Z.ltb_spec l (Z.of_nat (S k + m))),
        (Z.ltb_spec l (Z.of_nat (k + S m))); simpl; try reflexivity; lia. }
  rewrite H. change (Z.of_nat 0) with 0. rewrite Nat.add_0_l.
  destruct (Z.leb_spec 0 l), (Z.ltb_spec l (Z.of_nat (Z.to_nat n))),
    (Z.ltb_spec l n); simpl; try reflexivity; lia.
Qed.

Lemma range_present grid n :
  n <= Z.of_nat (length grid) ->
  forallb (fun l => existsb (Z.eqb l) (fst <$> number_rows 0 grid)) (range n)
  = true.
Proof.
  intros Hn. apply forallb_forall. intros l Hl. rewrite number_rows_labels.
  assert (existsb (Z.eqb l) (range n) = true) as H.
  { apply existsb_exists. exists l. split; [done|apply Z.eqb_refl]. }
  rewrite range_labels in H. apply andb_true_iff in H as [H1 H2].
  apply andb_true_iff. split; [done|]. apply Z.ltb_lt. apply Z.ltb_lt in H2. lia.
Qed.

Lemma filter_number_rows_keep n start grid :
  n <= start ->
  List.filter (fun r => negb (existsb (Z.eqb (fst r)) (range n)))
    (number_rows start grid) = number_rows start grid.
Proof.
  revert start. induction grid as [|r grid IH]; intros start H; simpl; [done|].
  rewrite range_labels.
  assert ((start <? n) = false) as -> by (apply Z.ltb_ge; lia).
  rewrite andb_false_r. simpl. rewrite IH; [done|lia].
Qed.

Lemma filter_number_rows_drop (k : nat) start grid :
  0 <= start ->
  List.filter (fun r => negb (existsb (Z.eqb (fst r)) (range (start + Z.of_nat k))))
    (number_rows start grid)
  = number_rows (start + Z.of_nat k) (drop k grid).
Proof.
  revert start grid. induction k as [|k IH]; intros start grid H.
  - rewrite drop_0, filter_number_rows_keep by lia. f_equal. lia.
  - destruct grid as [|r grid]; simpl; [done|]. rewrite range_labels.
    assert ((0 <=? start) = true) as -> by (apply Z.leb_le; lia).
    assert ((start <? start + Z.of_nat (S k)) = true) as ->
      by (apply Z.ltb_lt; lia).
    simpl. replace (start + Z.of_nat (S k))
      with (start + 1 + Z.of_nat k) by lia.
    apply IH. lia.
Qed.

(** *** Locating the header row *)

Lemma find_header_row_none keyword grid start :
  (forall row, row ∈ grid -> row_contains keyword row = false) ->
  find_header_row keyword (number_rows start grid) = None.
Proof.
  revert start. induction grid as [|r grid IH]; intros start H; simpl; [done|].
  rewrite H by apply list_elem_of_here. apply IH. intros row Hrow.
  apply H. by apply list_elem_of_further.
Qed.

Lemma find_header_row_first keyword grid (i : nat) row start :
  grid !! i = Some row ->
  row_contains keyword row = true ->
  (forall (j : nat) r, (j < i)%nat -> grid !! j = Some r ->
                       row_contains keyword r = false) ->
  find_header_row keyword (number_rows start grid) = Some (start + Z.of_nat i).
Proof.
  revert i start. induction grid as [|r grid IH]; intros i start Hi Hrow Hlt;
    [done|].
  destruct i as [|i]; simpl in *.
  - injection Hi as ->. rewrite Hrow. f_equal. lia.
  - rewrite (Hlt 0%nat r) by (done || lia).
    rewrite (IH i (start + 1)); [f_equal; lia | done..|].
    intros j r' Hj. apply (Hlt (S j)). lia.
Qed.

Lemma header_row_of_none keyword grid :
  header_row_of keyword grid = None ->
  forall row, row ∈ grid -> row_contains keyword row = false.
Proof.
  intros H row Hrow. apply (find_none _ _ H). by apply list_elem_of_In.
Qed.

Lemma header_row_of_some keyword grid row :
  header_row_of keyword grid = Some row ->
  exists i : nat,
    grid !! i = Some row /\ row_contains keyword row = true
    /\ forall (j : nat) r, (j < i)%nat -> grid !! j = Some r ->
                           row_contains keyword r = false.
Proof.
  unfold header_row_of. induction grid as [|r grid IH]; simpl; [done|].
  destruct (row_contains keyword r) eqn:E.
  - intros [= ->]. exists 0%nat. repeat split; [done|]. intros j r' Hj. lia.
  - intros H. destruct (IH H) as (i & Hi & Hrow & Hlt). exists (S i).
    repeat split; [done..|]. intros [|j] r' Hj; simpl.
    + by intros [= <-].
    + apply Hlt. lia.
Qed.

Lemma header_row_of_first keyword grid (i : nat) row :
  grid !! i = Some row ->
  row_contains keyword row = true ->
  (forall (j : nat) r, (j < i)%nat -> grid !! j = Some r ->
                       row_contains keyword r = false) ->
  header_row_of keyword grid = Some row.
Proof.
  unfold header_row_of. revert i. induction grid as [|r grid IH];
    intros i Hi Hrow Hlt; [done|].
  destruct i as [|i]; simpl in *.
  - injection Hi as ->. by rewrite Hrow.
  - rewrite (Hlt 0%nat r) by (done || lia). apply (IH i); [done..|].
    intros j r' Hj. apply (Hlt (S j)). lia.
Qed.

(** *** Header repositioning on a raw frame *)

Lemma insert_last {A} (l : list A) x y : <[length l := x]> (l ++ [y]) = l ++ [x].
Proof.
  rewrite insert_app_r_alt by lia. by rewrite Nat.sub_diag.
Qed.

(** No row with the keyword: the very frame comes back and the store is
    as it was. *)
Lemma set_table_header_miss (h : heap) (df : ref) grid keyword :
  h !! df = Some (of_grid grid) ->
  header_row_of keyword grid = None ->
  set_table_header df keyword h = (Ret df, h).
Proof.
  intros Hdf Hnone. unfold set_table_header, mbind, M_bind, bind, deref.
  rewrite Hdf. simpl.
  by rewrite (find_header_row_none _ _ _ (header_row_of_none _ _ Hnone)).
Qed.

(** A header row at position i: the caller's frame gets the row's cells as
    column labels, and a new frame with the rows below it, renumbered from
    0, is returned. *)
Lemma set_table_header_hit (h : heap) (df : ref) grid keyword (i : nat) row :
  h !! df = Some (of_grid grid) ->
  grid !! i = Some row ->
  row_contains keyword row = true ->
  (forall (j : nat) r, (j < i)%nat -> grid !! j = Some r ->
                       row_contains keyword r = false) ->
  set_table_header df keyword h
  = (Ret (length h),
     <[df := {| columns := LStr <$> row; rows := number_rows 0 grid |}]> h
     ++ [{| columns := LStr <$> row;
            rows := number_rows 0 (drop (S i) grid) |}]).
Proof.
  intros Hdf Hi Hrow Hlt.
  pose proof (lookup_lt_Some _ _ _ Hdf) as Hdflt.
  pose proof (lookup_lt_Some _ _ _ Hi) as Hilt.
  unfold set_table_header, mbind, M_bind, bind, deref.
  rewrite Hdf. simpl.
  rewrite (find_header_row_first _ _ i row 0 Hi Hrow Hlt). simpl.
  unfold iloc. simpl. change (0 + Z.of_nat i) with (Z.of_nat i).
  rewrite (getitem_lookup _ _ _ (number_rows_lookup _ _ _ 0 Hi)). simpl.
  rewrite list_lookup_insert_eq by done.
  unfold drop_index, index. simpl.
  rewrite range_present by lia.
  replace (Z.of_nat i + 1) with (0 + Z.of_nat (S i)) by lia.
  rewrite filter_number_rows_drop by lia.
  unfold mret, M_ret, ret, reset_index, cells. simpl.
  rewrite number_rows_cells.
  by rewrite insert_last, length_insert.
Qed.

(** *** Rank filtering *)

Lemma row_contains_spec keyword row :
  row_contains keyword row = true
  <-> exists c, c ∈ row /\ occurs_in keyword c.
Proof.
  unfold row_contains. rewrite existsb_exists. split.
  - intros (c & Hc & H). exists c. split; [by apply list_elem_of_In|].
    by apply contains_spec.
  - intros (c & Hc & H). exists c. split; [by apply list_elem_of_In|].
    by apply contains_spec.
Qed.

Lemma row_contains_false keyword row :
  row_contains keyword row = false
  <-> forall c, c ∈ row -> ~ occurs_in keyword c.
Proof.
  split.
  - intros H c Hc Hocc.
    assert (row_contains keyword row = true) as E
      by (apply row_contains_spec; eauto).
    congruence.
  - intros H. destruct (row_contains keyword row) eqn:E; [|done].
    apply row_contains_spec in E as (c & Hc & Hocc). by destruct (H c Hc).
Qed.

Lemma positions_default_labels key start (l : list Z) :
  positions (LStr key) start (LInt <$> l) = [].
Proof. revert start. induction l as [|n l IH]; intros start; simpl; [done|apply IH]. Qed.

Lemma positions_absent key start (row : list string) :
  key ∉ row -> positions (LStr key) start (LStr <$> row) = [].
Proof.
  revert start. induction row as [|c row IH]; intros start H; simpl; [done|].
  destruct (String.eqb_spec c key) as [->|_].
  - destruct H. apply list_elem_of_here.
  - apply IH. intros Hin. apply H. by apply list_elem_of_further.
Qed.

Section NormaliserFacts.

Variable frame_where : DataFrame -> DataFrame -> result DataFrame.

(** Without a column labelled "Rank" the lookup fails and the store is
    left alone. *)
Lemma filter_rank_rows_key_error (h : heap) (df : ref) f :
  h !! df = Some f ->
  positions (LStr "Rank") 0 (columns f) = [] ->
  filter_rank_rows frame_where df h = (Raise KeyError, h).
Proof.
  intros Hdf Hpos. unfold filter_rank_rows, mbind, M_bind, bind, deref.
  rewrite Hdf. simpl. unfold getitem_column. by rewrite Hpos.
Qed.

(** Rank filtering writes to no frame: at most it adds one. *)
Lemma filter_rank_rows_extends (h : heap) (df : ref) :
  exists added, snd (filter_rank_rows frame_where df h) = h ++ added.
Proof.
  unfold filter_rank_rows, mbind, M_bind, bind, deref, lift, alloc.
  destruct (h !! df) as [f|]; simpl; [|exists []; by rewrite app_nil_r].
  destruct (getitem_column f (LStr "Rank")) as [sel|e]; simpl;
    [|exists []; by rewrite app_nil_r].
  destruct (apply_is_valid_rank sel) as [m|e]; simpl;
    [|exists []; by rewrite app_nil_r].
  destruct (getitem_mask frame_where f m) as [g|e]; simpl;
    [by exists [g] | exists []; by rewrite app_nil_r].
Qed.

Lemma clean_results_table_miss (h : heap) (df : ref) grid :
  h !! df = Some (of_grid grid) ->
  header_row_of "Rank" grid = None ->
  clean_results_table frame_where df h = (Raise KeyError, h).
Proof.
  intros Hdf Hnone. unfold clean_results_table, mbind, M_bind, bind.
  rewrite (set_table_header_miss _ _ _ _ Hdf Hnone).
  apply (filter_rank_rows_key_error _ _ _ Hdf). simpl.
  apply positions_default_labels.
Qed.

(** C10: when the first row with "Rank" inside a cell has no cell equal
    to "Rank", header repositioning adopts it all the same: the input
    frame gets its cells as column labels and a new frame with the rows
    below it is returned; rank filtering then fails with KeyError, and
    [clean_results_table] returns no table. *)
Theorem header_row_without_rank_column (h : heap) (df : ref) grid (i : nat) row :
  h !! df = Some (of_grid grid) ->
  grid !! i = Some row ->
  (exists c, c ∈ row /\ occurs_in "Rank" c) ->
  (forall (j : nat) r c, (j < i)%nat -> grid !! j = Some r -> c ∈ r ->
                         ~ occurs_in "Rank" c) ->
  "Rank" ∉ row ->
  set_table_header df "Rank" h
  = (Ret (length h),
     <[df := {| columns := LStr <$> row; rows := number_rows 0 grid |}]> h
     ++ [{| columns := LStr <$> row;
            rows := number_rows 0 (drop (S i) grid) |}])
  /\ fst (clean_results_table frame_where df h) = Raise KeyError.
Proof.
  intros Hdf Hi Hrow Hlt Hno.
  apply row_contains_spec in Hrow.
  assert (forall (j : nat) r, (j < i)%nat -> grid !! j = Some r ->
                              row_contains "Rank" r = false) as Hlt'.
  { intros j r Hj Hr. apply row_contains_false. intros c. by apply (Hlt j). }
  pose proof (set_table_header_hit _ _ _ _ _ _ Hdf Hi Hrow Hlt') as Hset.
  split; [exact Hset|].
  unfold clean_results_table, mbind, M_bind, bind. rewrite Hset.
  erewrite filter_rank_rows_key_error; [done| |].
  - rewrite lookup_app_r by (rewrite length_insert; lia).
    by rewrite length_insert, Nat.sub_diag.
  - simpl. by apply positions_absent.
Qed.

(** C4, as the code has it: whatever the outcome, the input frame keeps
    its rows, cells and index; its column labels stay when no row has
    "Rank" in a cell and otherwise become the cells of the first such
    row; and no other frame of the store is written to. *)
Theorem clean_results_table_input_effect (h : heap) (df : ref) grid :
  h !! df = Some (of_grid grid) ->
  snd (clean_results_table frame_where df h) !! df
  = Some {| columns := match header_row_of "Rank" grid with
                       | Some row => LStr <$> row
                       | None => columns (of_grid grid)
                       end;
            rows := rows (of_grid grid) |}
  /\ forall (r : ref) f, r <> df -> h !! r = Some f ->
       snd (clean_results_table frame_where df h) !! r = Some f.
Proof.
  intros Hdf. destruct (header_row_of "Rank" grid) as [row|] eqn:Hrow.
  - destruct (header_row_of_some _ _ _ Hrow) as (i & Hi & Hc & Hlt).
    unfold clean_results_table, mbind, M_bind, bind.
    rewrite (set_table_header_hit _ _ _ _ _ _ Hdf Hi Hc Hlt).
    match goal with
    | |- context [filter_rank_rows ?w ?r ?h1] =>
        destruct (filter_rank_rows_extends h1 r) as [added ->]
    end.
    pose proof (lookup_lt_Some _ _ _ Hdf) as Hlen. split.
    + rewrite <- !app_assoc, lookup_app_l by (rewrite length_insert; lia).
      by rewrite list_lookup_insert_eq.
    + intros r f Hr Hf. pose proof (lookup_lt_Some _ _ _ Hf) as Hrlen.
      rewrite <- !app_assoc, lookup_app_l by (rewrite length_insert; lia).
      by rewrite list_lookup_insert_ne.
  - rewrite (clean_results_table_miss _ _ _ Hdf Hrow). simpl. split; [|done].
    by rewrite Hdf.
Qed.

End NormaliserFacts.

(** *** Concrete tables *)

(** C3: a grid without "Rank" in any cell.  Header repositioning hands the
    frame back untouched, but [clean_results_table] then looks up the
    column "Rank" among the default integer labels and raises KeyError
    where the claim has it return the grid. *)
Theorem clean_results_table_without_keyword_raises :
  let grid := [[""; "Category Result Summary"];
               ["1"; "A. Smith"];
               ["2"; "B. Lee"]] in
  header_row_of "Rank" grid = None
  /\ set_table_header 0%nat "Rank" [of_grid grid] = (Ret 0%nat, [of_grid grid])
  /\ forall frame_where,
      clean_results_table frame_where 0%nat [of_grid grid]
      = (Raise KeyError, [of_grid grid]).
Proof.
  intros grid. split; [reflexivity|]. split; [reflexivity|].
  intros frame_where. by apply (clean_results_table_miss _ _ _ grid).
Qed.

Lemma header_row_without_rank_column_witness :
  let grid := [["Ranking"; "Name"]; ["1"; "A. Smith"]] in
  set_table_header 0%nat "Rank" [of_grid grid]
  = (Ret 1%nat,
     [ {| columns := [LStr "Ranking"; LStr "Name"];
          rows := [(0, ["Ranking"; "Name"]); (1, ["1"; "A. Smith"])] |};
       {| columns := [LStr "Ranking"; LStr "Name"];
          rows := [(0, ["1"; "A. Smith"])] |} ])
  /\ fst (clean_results_table where_keeps 0%nat [of_grid grid]) = Raise KeyError.
Proof.
  intros grid.
  apply (header_row_without_rank_column where_keeps [of_grid grid] 0%nat grid
           0%nat ["Ranking"; "Name"]).
  - reflexivity.
  - reflexivity.
  - exists "Ranking". split; [apply list_elem_of_here|]. by exists "", "ing".
  - intros j r c Hj. lia.
  - intros H. apply list_elem_of_In in H. simpl in H.
    destruct H as [H|[H|[]]]; discriminate.
Defined.

Lemma clean_results_table_input_effect_witness :
  let grid := [[""; "Category Result Summary"; ""];
               ["Rank"; "Name"; "Score"];
               ["1"; "A. Smith"; "65.2"];
               ["2"; "B. Lee"; "60.1"];
               [""; "Page 1 of 1"; ""]] in
  snd (clean_results_table where_keeps 0%nat [of_grid grid]) !! 0%nat
  = Some {| columns := [LStr "Rank"; LStr "Name"; LStr "Score"];
            rows := rows (of_grid grid) |}.
Proof.
  intros grid.
  exact (proj1 (clean_results_table_input_effect where_keeps [of_grid grid]
                  0%nat grid eq_refl)).
Defined.

(** C4 as stated fails: on the grid of the specification's scenario B the
    normaliser returns its table, and the input frame no longer has the
    column labels 0, 1, 2 it came with. *)
Lemma clean_results_table_relabels_input :
  let grid := [[""; "Category Result Summary"; ""];
               ["Rank"; "Name"; "Score"];
               ["1"; "A. Smith"; "65.2"];
               ["2"; "B. Lee"; "60.1"];
               [""; "Page 1 of 1"; ""]] in
  let before := [of_grid grid] in
  let after := snd (clean_results_table where_keeps 0%nat before) in
  fst (clean_results_table where_keeps 0%nat before) = Ret 2%nat
  /\ columns <$> before !! 0%nat = Some [LInt 0; LInt 1; LInt 2]
  /\ columns <$> after !! 0%nat = Some [LStr "Rank"; LStr "Name"; LStr "Score"]
  /\ after !! 0%nat <> before !! 0%nat.
Proof. by repeat split. Qed.

(** Scenario B of the specification, on a rectangular grid: the rows below
    the header row whose rank is valid. *)
Example scenario_b :
  let grid := [[""; "Category Result Summary"; ""];
               ["Rank"; "Name"; "Score"];
               ["1"; "A. Smith"; "65.2"];
               ["2"; "B. Lee"; "60.1"];
               [""; "Page 1 of 1"; ""]] in
  snd (clean_results_table where_keeps 0%nat [of_grid grid]) !! 2%nat
  = Some {| columns := [LStr "Rank"; LStr "Name"; LStr "Score"];
            rows := [(0, ["1"; "A. Smith"; "65.2"]);
                     (1, ["2"; "B. Lee"; "60.1"])] |}.
Proof. reflexivity. Qed.

(** Scenario A of the specification. *)
Example scenario_a :
  extract_header_info "Spring Classic
Toronto, ON
July 14-16, 2024
Senior Women Free Skate
Starting Order"
  = Ret (Dict {| CompetitionName := "Spring Classic";
                 Location := "Toronto, ON";
                 DateRange := "July 14-16, 2024";
                 Event := "Senior Women Free Skate";
                 DocumentType := "Starting Order" |}).
Proof. reflexivity. Qed.

(** * Further properties of the table normaliser *)



Lemma number_rows_elem (grid : list (list string)) start l row :
  (l, row) ∈ number_rows start grid ->
  exists k : nat, l = start + Z.of_nat k /\ grid !! k = Some row.
Proof.
  revert start. induction grid as [|r grid IH]; intros start H; simpl in H.
  - by apply elem_of_nil in H.
  - apply elem_of_cons in H as [[= -> ->]|H].
    + exists 0%nat. split; [lia|done].
    + destruct (IH _ H) as (k & -> & Hk). exists (S k). split; [lia|done].
Qed.

Lemma number_rows_elem_of (grid : list (list string)) start (k : nat) row :
  grid !! k = Some row -> (start + Z.of_nat k, row) ∈ number_rows start grid.
Proof.
  intros H. apply list_elem_of_lookup. exists k. by apply number_rows_lookup.
Qed.







Lemma positions_cons key start c (row : list string) :
  positions (LStr key) start (LStr <$> c :: row)
  = if String.eqb c key
    then start :: positions (LStr key) (S start) (LStr <$> row)
    else positions (LStr key) (S start) (LStr <$> row).
Proof. reflexivity. Qed.

Lemma positions_unique key start (row : list string) (j : nat) :
  row !! j = Some key ->
  (forall j' : nat, j' <> j -> row !! j' <> Some key) ->
  positions (LStr key) start (LStr <$> row) = [(start + j)%nat].
Proof.
  revert start j. induction row as [|c row IH]; intros start j Hj Hother; [done|].
  rewrite positions_cons. destruct j as [|j]; simpl in Hj.
  - injection Hj as ->. rewrite String.eqb_refl, positions_absent.
    + by rewrite Nat.add_0_r.
    + intros Hin. apply list_elem_of_lookup in Hin as [k Hk].
      by apply (Hother (S k)).
  - destruct (String.eqb_spec c key) as [->|_].
    + by destruct (Hother 0%nat).
    + rewrite (IH (S start) j Hj); [f_equal; lia|].
      intros j' Hj'. apply (Hother (S j')). lia.
Qed.

Lemma positions_repeated key start (row : list string) (j1 j2 : nat) :
  (j1 < j2)%nat ->
  row !! j1 = Some key -> row !! j2 = Some key ->
  exists a b rest, positions (LStr key) start (LStr <$> row) = a :: b :: rest.
Proof.
  revert start j1 j2. induction row as [|c row IH]; intros start j1 j2 Hlt H1 H2;
    [done|].
  rewrite positions_cons.
  destruct j2 as [|j2]; [lia|]. simpl in H2. destruct j1 as [|j1]; simpl in H1.
  - injection H1 as ->. rewrite String.eqb_refl.
    assert (exists b rest, positions (LStr key) (S start) (LStr <$> row) = b :: rest)
      as (b & rest & ->); [|by eauto].
    clear IH Hlt. revert start j2 H2. induction row as [|c row IH];
      intros start j2 H2; [done|].
    rewrite positions_cons. destruct j2 as [|j2]; simpl in H2.
    + injection H2 as ->. rewrite String.eqb_refl. eauto.
    + destruct (String.eqb c key); [eauto|]. by apply (IH _ j2).
  - destruct (String.eqb c key).
    + destruct (IH (S start) j1 j2) as (a & b & rest & ->); [lia|done..|]. eauto.
    + apply (IH _ j1 j2); [lia|done..].
Qed.

Lemma select_rows_filter (p : Z * list string -> bool) rs :
  select_rows (p <$> rs) rs = List.filter p rs.
Proof.
  induction rs as [|r rs IH]; [done|].
  change (select_rows (p <$> r :: rs) (r :: rs))
    with (if p r then r :: select_rows (p <$> rs) rs
          else select_rows (p <$> rs) rs).
  rewrite IH. simpl. by destruct (p r).
Qed.

Lemma apply_is_valid_rank_series (values : list string) :
  values <> [] ->
  apply_is_valid_rank (Series values) = Ret (BoolMask (is_valid_rank <$> values)).
Proof. by destruct values. Qed.

Section NormaliserMore.

Variable frame_where : DataFrame -> DataFrame -> result DataFrame.

(** Rank filtering of a frame with rows and one column labelled "Rank":
    a new frame with the rows whose cell in that column is a valid rank. *)
Lemma filter_rank_rows_one_column (h : heap) (df : ref) f (j : nat) :
  h !! df = Some f ->
  positions (LStr "Rank") 0 (columns f) = [j] ->
  rows f <> [] ->
  filter_rank_rows frame_where df h
  = (Ret (length h),
     h ++ [{| columns := columns f;
              rows := List.filter (fun r => is_valid_rank (cell r.2 j)) (rows f) |}]).
Proof.
  intros Hdf Hpos Hrows.
  unfold filter_rank_rows, mbind, M_bind, bind, deref, lift, alloc.
  rewrite Hdf. cbv beta iota. unfold getitem_column. rewrite Hpos.
  cbv beta iota.
  rewrite apply_is_valid_rank_series by (by destruct (rows f)).
  simpl. rewrite <- list_fmap_compose.
  by rewrite (select_rows_filter (fun r => is_valid_rank (cell r.2 j))).
Qed.

Lemma filter_rank_rows_repeated_column (h : heap) (df : ref) f a b rest :
  h !! df = Some f ->
  positions (LStr "Rank") 0 (columns f) = a :: b :: rest ->
  rows f <> [] ->
  filter_rank_rows frame_where df h = (Raise AttributeError, h).
Proof.
  intros Hdf Hpos Hrows.
  unfold filter_rank_rows, mbind, M_bind, bind, deref, lift, alloc.
  rewrite Hdf. simpl. unfold getitem_column. rewrite Hpos. simpl.
  by destruct (rows f).
Qed.

(** The whole normaliser on a raw grid with a header row naming exactly one
    column "Rank" and rows below it. *)
Lemma clean_results_table_hit (h : heap) (df : ref) grid (i j : nat) row :
  h !! df = Some (of_grid grid) ->
  grid !! i = Some row ->
  row_contains "Rank" row = true ->
  (forall (k : nat) r, (k < i)%nat -> grid !! k = Some r ->
                       row_contains "Rank" r = false) ->
  row !! j = Some "Rank" ->
  (forall j' : nat, j' <> j -> row !! j' <> Some "Rank") ->
  (S i < length grid)%nat ->
  clean_results_table frame_where df h
  = (Ret (S (length h)),
     <[df := {| columns := LStr <$> row; rows := number_rows 0 grid |}]> h
     ++ [{| columns := LStr <$> row; rows := number_rows 0 (drop (S i) grid) |};
         {| columns := LStr <$> row;
            rows := List.filter (fun r => is_valid_rank (cell r.2 j))
                      (number_rows 0 (drop (S i) grid)) |}]).
Proof.
  intros Hdf Hi Hrow Hlt Hj Hother Hbelow.
  pose proof (lookup_lt_Some _ _ _ Hdf) as Hlen.
  unfold clean_results_table, mbind, M_bind, bind.
  rewrite (set_table_header_hit h df grid "Rank" i row Hdf Hi Hrow Hlt).
  rewrite (filter_rank_rows_one_column _ _
             {| columns := LStr <$> row;
                rows := number_rows 0 (drop (S i) grid) |} j).
  - rewrite length_app, length_insert. simpl.
    rewrite <- app_assoc. simpl. do 2 f_equal. lia.
  - rewrite lookup_app_r by (rewrite length_insert; lia).
    by rewrite length_insert, Nat.sub_diag.
  - simpl. by rewrite (positions_unique _ _ _ j).
  - simpl. destruct (drop (S i) grid) eqn:E; [|done].
    apply (f_equal length) in E. rewrite length_drop in E. simpl in E. lia.
Qed.

(** X4: the normaliser on a raw grid whose first row with "Rank" in a cell
    has exactly one cell equal to "Rank", at column j, and has rows below
    it: it returns a new frame whose column labels are that row's cells and
    whose rows are, in order, the rows below it with a valid rank in column
    j; the frame repositioning made stays in the store, and the input keeps
    its rows. *)
Theorem clean_results_table_keeps_valid_ranks (h : heap) (df : ref) grid (i j : nat) row :
  h !! df = Some (of_grid grid) ->
  grid !! i = Some row ->
  (exists c, c ∈ row /\ occurs_in "Rank" c) ->
  (forall (k : nat) r c, (k < i)%nat -> grid !! k = Some r -> c ∈ r ->
                         ~ occurs_in "Rank" c) ->
  row !! j = Some "Rank" ->
  (forall j' : nat, j' <> j -> row !! j' <> Some "Rank") ->
  (S i < length grid)%nat ->
  clean_results_table frame_where df h
  = (Ret (S (length h)),
     <[df := {| columns := LStr <$> row; rows := number_rows 0 grid |}]> h
     ++ [{| columns := LStr <$> row; rows := number_rows 0 (drop (S i) grid) |};
         {| columns := LStr <$> row;
            rows := List.filter (fun r => is_valid_rank (cell r.2 j))
                      (number_rows 0 (drop (S i) grid)) |}]).
Proof.
  intros Hdf Hi Hrow Hlt Hj Hother Hbelow. apply row_contains_spec in Hrow.
  apply (clean_results_table_hit h df grid i j row); try done.
  intros k r Hk Hr. apply row_contains_false. intros c. by apply (Hlt k).
Qed.

(** X5: under the same conditions, the table returned holds a row with
    index label l exactly when the l-th row below the header row has a
    valid rank in the "Rank" column: every row kept has a valid rank, every
    row with a valid rank is kept, and the labels are the positions below
    the header row, not renumbered after the filter. *)
Theorem clean_results_table_rows (h : heap) (df : ref) grid (i j : nat) row :
  h !! df = Some (of_grid grid) ->
  grid !! i = Some row ->
  (exists c, c ∈ row /\ occurs_in "Rank" c) ->
  (forall (k : nat) r c, (k < i)%nat -> grid !! k = Some r -> c ∈ r ->
                         ~ occurs_in "Rank" c) ->
  row !! j = Some "Rank" ->
  (forall j' : nat, j' <> j -> row !! j' <> Some "Rank") ->
  (S i < length grid)%nat ->
  exists out h' table,
    clean_results_table frame_where df h = (Ret out, h')
    /\ h' !! out = Some table
    /\ columns table = LStr <$> row
    /\ forall (l : nat) r,
         (Z.of_nat l, r) ∈ rows table
         <-> grid !! (S i + l)%nat = Some r /\ is_valid_rank (cell r j) = true.
Proof.
  intros Hdf Hi Hrow Hlt Hj Hother Hbelow. apply row_contains_spec in Hrow.
  pose proof (lookup_lt_Some _ _ _ Hdf) as Hlen.
  rewrite (clean_results_table_hit h df grid i j row); try done.
  2:{ intros k r Hk Hr. apply row_contains_false. intros c. by apply (Hlt k). }
  eexists _, _, _. split; [reflexivity|]. split; [|split].
  - rewrite lookup_app_r by (rewrite length_insert; lia).
    rewrite length_insert.
    by replace (S (length h) - length h)%nat with 1%nat by lia.
  - done.
  - intros l r. cbn [rows].
    rewrite list_elem_of_In, filter_In, <- list_elem_of_In.
    cbn [snd]. split.
    + intros [Hin Hvalid]. split; [|done].
      apply number_rows_elem in Hin as (k & Hk & Hr).
      rewrite lookup_drop in Hr. replace l with k by lia. exact Hr.
    + intros [Hr Hvalid]. split; [|done].
      change (S (i + l)) with (S i + l)%nat in Hr. rewrite <- lookup_drop in Hr.
      apply (number_rows_elem_of _ 0) in Hr. by rewrite Z.add_0_l in Hr.
Qed.

(** X6: when the header row has the cell "Rank" twice and there are rows
    below it, the column lookup yields a frame, [is_valid_rank] is handed a
    whole column, and the normaliser raises AttributeError. *)
Theorem clean_results_table_repeated_rank_column (h : heap) (df : ref) grid (i j1 j2 : nat) row :
  h !! df = Some (of_grid grid) ->
  grid !! i = Some row ->
  (forall (k : nat) r c, (k < i)%nat -> grid !! k = Some r -> c ∈ r ->
                         ~ occurs_in "Rank" c) ->
  j1 <> j2 ->
  row !! j1 = Some "Rank" ->
  row !! j2 = Some "Rank" ->
  (S i < length grid)%nat ->
  fst (clean_results_table frame_where df h) = Raise AttributeError.
Proof.
  intros Hdf Hi Hlt Hne H1 H2 Hbelow.
  pose proof (lookup_lt_Some _ _ _ Hdf) as Hlen.
  assert (row_contains "Rank" row = true) as Hrow.
  { apply row_contains_spec. exists "Rank". split.
    - apply list_elem_of_lookup. by exists j1.
    - by exists "", "". }
  assert (exists a b rest,
            positions (LStr "Rank") 0 (LStr <$> row) = a :: b :: rest)
    as (a & b & rest & Hpos).
  { destruct (Nat.lt_total j1 j2) as [Hlt12|[->|Hlt21]]; [|done|].
    - by apply (positions_repeated _ _ _ j1 j2).
    - by apply (positions_repeated _ _ _ j2 j1). }
  unfold clean_results_table, mbind, M_bind, bind.
  rewrite (set_table_header_hit h df grid "Rank" i row Hdf Hi Hrow).
  2:{ intros k r Hk Hr. apply row_contains_false. intros c. by apply (Hlt k). }
  rewrite (filter_rank_rows_repeated_column _ _
             {| columns := LStr <$> row;
                rows := number_rows 0 (drop (S i) grid) |} a b rest);
    [done| |exact Hpos|].
  - rewrite lookup_app_r by (rewrite length_insert; lia).
    by rewrite length_insert, Nat.sub_diag.
  - simpl. destruct (drop (S i) grid) eqn:E; [|done].
    apply (f_equal length) in E. rewrite length_drop in E. simpl in E. lia.
Qed.

End NormaliserMore.

Lemma clean_results_table_keeps_valid_ranks_witness :
  let grid := [[""; "Category Result Summary"; ""];
               ["Rank"; "Name"; "Score"];
               ["1"; "A. Smith"; "65.2"];
               ["WD"; "B. Lee"; ""];
               [""; "Page 1 of 1"; ""]] in
  clean_results_table where_keeps 0%nat [of_grid grid]
  = (Ret 2%nat,
     [ {| columns := [LStr "Rank"; LStr "Name"; LStr "Score"];
          rows := rows (of_grid grid) |};
       {| columns := [LStr "Rank"; LStr "Name"; LStr "Score"];
          rows := [(0, ["1"; "A. Smith"; "65.2"]); (1, ["WD"; "B. Lee"; ""]);
                   (2, [""; "Page 1 of 1"; ""])] |};
       {| columns := [LStr "Rank"; LStr "Name"; LStr "Score"];
          rows := [(0, ["1"; "A. Smith"; "65.2"]); (1, ["WD"; "B. Lee"; ""])] |} ]).
Proof.
  intros grid.
  apply (clean_results_table_keeps_valid_ranks where_keeps [of_grid grid] 0%nat
           grid 1%nat 0%nat ["Rank"; "Name"; "Score"]).
  - reflexivity.
  - reflexivity.
  - exists "Rank". split; [apply list_elem_of_here|]. by exists "", "".
  - intros k r c Hk Hr Hc. destruct k as [|k]; [|lia]. injection Hr as <-.
    assert (row_contains "Rank" [""; "Category Result Summary"; ""] = false)
      as E by reflexivity.
    by apply (proj1 (row_contains_false _ _) E).
  - reflexivity.
  - intros [|[|[|j']]] Hj'; done.
  - simpl. lia.
Defined.

Lemma clean_results_table_rows_witness :
  let grid := [["Rank"; "Name"]; ["1"; "A. Smith"]; ["DNS"; "B. Lee"];
               ["2"; "C. Roy"]] in
  exists out h' table,
    clean_results_table where_keeps 0%nat [of_grid grid] = (Ret out, h')
    /\ h' !! out = Some table
    /\ columns table = [LStr "Rank"; LStr "Name"]
    /\ forall (l : nat) r,
         (Z.of_nat l, r) ∈ rows table
         <-> grid !! (1 + l)%nat = Some r /\ is_valid_rank (cell r 0) = true.
Proof.
  intros grid.
  apply (clean_results_table_rows where_keeps [of_grid grid] 0%nat grid 0%nat
           0%nat ["Rank"; "Name"]).
  - reflexivity.
  - reflexivity.
  - exists "Rank". split; [apply list_elem_of_here|]. by exists "", "".
  - intros k r c Hk. lia.
  - reflexivity.
  - intros [|[|j']] Hj'; done.
  - simpl. lia.
Defined.

Lemma clean_results_table_repeated_rank_column_witness :
  fst (clean_results_table where_keeps 0%nat
         [of_grid [["Rank"; "Name"; "Rank"]; ["1"; "A. Smith"; "2"]]])
  = Raise AttributeError.
Proof.
  apply (clean_results_table_repeated_rank_column where_keeps _ 0%nat
           [["Rank"; "Name"; "Rank"]; ["1"; "A. Smith"; "2"]] 0%nat 0%nat 2%nat
           ["Rank"; "Name"; "Rank"]).
  - reflexivity.
  - reflexivity.
  - intros k r c Hk. lia.
  - lia.
  - reflexivity.
  - reflexivity.
  - simpl. lia.
Defined.

(** * Further properties of header extraction *)

Lemma infer_document_type_range text :
  infer_document_type text = "Officials List"
  \/ infer_document_type text = "Starting Order"
  \/ infer_document_type text = "Category Result Summary"
  \/ infer_document_type text = "Detail Sheets"
  \/ infer_document_type text = "Unknown".
Proof.
  unfold infer_document_type.
  repeat match goal with
         | |- context [if ?b then _ else _] => destruct b
         end; tauto.
Qed.

Lemma index_of_date_line_none lines : index_of_date_line None lines = -1.
Proof. reflexivity. Qed.

Lemma index_of_date_line_found text d :
  find_competition_date_line text = Some d ->
  exists i : nat,
    index_of_date_line (Some d) (text_lines text) = Z.of_nat i
    /\ text_lines text !! i = Some d.
Proof.
  intros H. destruct (find_competition_date_line_Some _ _ H)
    as (i & Hi & _ & _ & _ & Hidx). by exists i.
Qed.

Lemma getitem_outcome {A} (l : list A) (k : Z) :
  (exists x, PyList.getitem l k = Ret x) \/ PyList.getitem l k = Raise IndexError.
Proof.
  unfold PyList.getitem.
  destruct (_ || _); [by right|]. destruct (l !! _); [left; eauto|by right].
Qed.

Lemma getitem_beyond {A} (l : list A) (i : nat) :
  (length l <= i)%nat -> PyList.getitem l (Z.of_nat i) = Raise IndexError.
Proof.
  intros H. unfold PyList.getitem.
  assert ((Z.of_nat i <? 0) = false) as E1 by (apply Z.ltb_ge; lia).
  assert ((Z.of_nat (length l) <=? Z.of_nat i) = true) as E2
    by (apply Z.leb_le; lia).
  rewrite E1. cbv zeta. by rewrite E1, E2.
Qed.

Lemma getitem_minus_one {A} (l : list A) x :
  last l = Some x -> PyList.getitem l (-1) = Ret x.
Proof.
  intros H. unfold PyList.getitem.
  assert (l <> []) as Hne by (intros ->; discriminate).
  assert (0 < length l)%nat as Hlen by (destruct l; [done|simpl; lia]).
  change (-1 <? 0) with true. cbv iota zeta.
  assert ((-1 + Z.of_nat (length l) <? 0) = false) as E1
    by (apply Z.ltb_ge; lia).
  assert ((Z.of_nat (length l) <=? -1 + Z.of_nat (length l)) = false) as E2
    by (apply Z.leb_gt; lia).
  rewrite E1, E2. simpl.
  replace (Z.to_nat (-1 + Z.of_nat (length l))) with (pred (length l)) by lia.
  rewrite last_lookup in H. by rewrite H.
Qed.

Lemma slice_to_minus_one {A} (l : list A) :
  PyList.slice_to l (-1) = take (length l - 1) l.
Proof.
  unfold PyList.slice_to. change (-1 <? 0) with true. cbv iota zeta.
  f_equal. lia.
Qed.

(** The event-sheet layout with the date line at index i >= 1. *)
Lemma extract_event_sheets_header_info_at lines document_type (i : nat) loc date ev :
  (1 <= i)%nat ->
  lines !! (i - 1)%nat = Some loc ->
  lines !! i = Some date ->
  lines !! (i + 1)%nat = Some ev ->
  extract_event_sheets_header_info lines document_type (Z.of_nat i)
  = Ret {| CompetitionName := PyStr.strip (PyStr.join " " (take (i - 1) lines));
           Location := PyStr.strip loc;
           DateRange := PyStr.strip date;
           Event := PyStr.strip ev;
           DocumentType := document_type |}.
Proof.
  intros Hi Hloc Hdate Hev. unfold extract_event_sheets_header_info.
  replace (Z.of_nat i - 1) with (Z.of_nat (i - 1)) by lia.
  replace (Z.of_nat i + 1) with (Z.of_nat (i + 1)) by lia.
  rewrite slice_to_take.
  by rewrite (getitem_lookup _ _ _ Hloc), (getitem_lookup _ _ _ Hdate),
    (getitem_lookup _ _ _ Hev).
Qed.

(** Where the locator finds the topmost date line, at index i. *)
Lemma date_line_index text (i : nat) date :
  (i < 10)%nat ->
  text_lines text !! i = Some date ->
  date_like date ->
  (forall (j : nat) l, (j < i)%nat -> text_lines text !! j = Some l ->
                       ~ date_like l) ->
  find_competition_date_line text = Some date
  /\ index_of_date_line (Some date) (text_lines text) = Z.of_nat i.
Proof.
  intros Hi Hdate Hlike Hbefore. split.
  - apply (find_competition_date_line_topmost text i); [done..| |].
    + by apply is_date_line_spec.
    + intros j l Hj Hl. apply is_date_line_false. by apply (Hbefore j).
  - unfold index_of_date_line. rewrite (index_first _ i); [done..|].
    intros j Hj Hjd. by apply (Hbefore j date).
Qed.

(** X7: the empty dictionary is returned exactly for the documents typed
    "Unknown" and those without a date line among their first ten lines. *)
Theorem extract_header_info_empty_iff text :
  extract_header_info text = Ret EmptyDict
  <-> infer_document_type text = "Unknown"
      \/ find_competition_date_line text = None.
Proof.
  unfold extract_header_info. split.
  - destruct (String.eqb_spec (infer_document_type text) "Unknown") as [|Hne];
      [by left|]. simpl.
    destruct (find_competition_date_line text) as [d|] eqn:Hd; [|by right].
    destruct (index_of_date_line_found _ _ Hd) as (i & -> & _).
    assert ((Z.of_nat i =? -1) = false) as -> by (apply Z.eqb_neq; lia).
    repeat match goal with
           | |- context [if ?b then _ else _] => destruct b
           end; try done.
    + by destruct (extract_event_sheets_header_info _ _ _).
    + by destruct (extract_detail_sheets_header_info _ _).
  - intros [->| ->]; [done|]. simpl. by rewrite orb_true_r.
Qed.

(** X8: [None] is returned exactly for the documents typed "Category Result
    Summary" that have a date line among their first ten lines. *)
Theorem extract_header_info_none_iff text :
  extract_header_info text = Ret PyNone
  <-> infer_document_type text = "Category Result Summary"
      /\ find_competition_date_line text <> None.
Proof.
  split.
  - unfold extract_header_info.
    destruct (find_competition_date_line text) as [d|] eqn:Hd.
    + destruct (index_of_date_line_found _ _ Hd) as (i & -> & _).
      assert ((Z.of_nat i =? -1) = false) as -> by (apply Z.eqb_neq; lia).
      destruct (infer_document_type_range text) as [->|[->|[->|[->| ->]]]];
        simpl; try done.
      * by destruct (extract_event_sheets_header_info _ _ _).
      * by destruct (extract_event_sheets_header_info _ _ _).
      * by destruct (extract_detail_sheets_header_info _ _).
    + simpl. by rewrite orb_true_r.
  - intros [Ht Hd]. destruct (find_competition_date_line text) as [d|] eqn:E;
      [|done].
    by apply (extract_header_info_category_result_summary text d).
Qed.

(** X9: locator, classifier and assembler together.  For a document typed
    "Officials List" or "Starting Order" whose topmost date line stands at
    index i, 1 <= i < 10, with a line after it, the header is: the lines
    before index i-1 joined by blanks as CompetitionName, line i-1 as
    Location, line i as DateRange, line i+1 as Event, each trimmed, and the
    type. *)
Theorem extract_header_info_event_sheet text (i : nat) loc date ev :
  infer_document_type text = "Officials List"
  \/ infer_document_type text = "Starting Order" ->
  (1 <= i < 10)%nat ->
  text_lines text !! (i - 1)%nat = Some loc ->
  text_lines text !! i = Some date ->
  text_lines text !! (i + 1)%nat = Some ev ->
  date_like date ->
  (forall (j : nat) l, (j < i)%nat -> text_lines text !! j = Some l ->
                       ~ date_like l) ->
  extract_header_info text
  = Ret (Dict {| CompetitionName :=
                   PyStr.strip (PyStr.join " " (take (i - 1) (text_lines text)));
                 Location := PyStr.strip loc;
                 DateRange := PyStr.strip date;
                 Event := PyStr.strip ev;
                 DocumentType := infer_document_type text |}).
Proof.
  intros Ht [Hi1 Hi10] Hloc Hdate Hev Hlike Hbefore.
  destruct (date_line_index text i date Hi10 Hdate Hlike Hbefore) as [Hfind Hidx].
  unfold extract_header_info. rewrite Hfind, Hidx.
  assert ((Z.of_nat i =? -1) = false) as -> by (apply Z.eqb_neq; lia).
  rewrite (extract_event_sheets_header_info_at _ _ i loc date ev) by done.
  by destruct Ht as [-> | ->].
Qed.

Lemma extract_header_info_event_sheet_witness :
  extract_header_info "2024 Skate Canada
Challenge
Winnipeg, MB
Nov 29 - Dec 3, 2024
Novice Men Short Program
Officials List"
  = Ret (Dict {| CompetitionName := "2024 Skate Canada Challenge";
                 Location := "Winnipeg, MB";
                 DateRange := "Nov 29 - Dec 3, 2024";
                 Event := "Novice Men Short Program";
                 DocumentType := "Officials List" |}).
Proof.
  refine (extract_header_info_event_sheet "2024 Skate Canada
Challenge
Winnipeg, MB
Nov 29 - Dec 3, 2024
Novice Men Short Program
Officials List" 3%nat "Winnipeg, MB" "Nov 29 - Dec 3, 2024"
            "Novice Men Short Program" _ _ eq_refl eq_refl eq_refl _ _).
  - by left.
  - lia.
  - by apply is_date_line_spec.
  - intros [|[|[|j]]] l Hj; [| | |lia]; intros [= <-];
      by apply is_date_line_false.
Defined.

(** X10: when the topmost date line of an "Officials List" or "Starting
    Order" document is its last line, there is no line for Event and header
    extraction raises IndexError. *)
Theorem extract_header_info_date_line_last text (i : nat) date :
  infer_document_type text = "Officials List"
  \/ infer_document_type text = "Starting Order" ->
  (i < 10)%nat ->
  text_lines text !! i = Some date ->
  length (text_lines text) = S i ->
  date_like date ->
  (forall (j : nat) l, (j < i)%nat -> text_lines text !! j = Some l ->
                       ~ date_like l) ->
  extract_header_info text = Raise IndexError.
Proof.
  intros Ht Hi10 Hdate Hlen Hlike Hbefore.
  destruct (date_line_index text i date Hi10 Hdate Hlike Hbefore) as [Hfind Hidx].
  unfold extract_header_info. rewrite Hfind, Hidx.
  assert ((Z.of_nat i =? -1) = false) as -> by (apply Z.eqb_neq; lia).
  assert (extract_event_sheets_header_info (text_lines text)
            (infer_document_type text) (Z.of_nat i) = Raise IndexError) as ->.
  { unfold extract_event_sheets_header_info.
    replace (Z.of_nat i + 1) with (Z.of_nat (S i)) by lia.
    rewrite (getitem_beyond _ (S i)) by lia.
    destruct (getitem_outcome (text_lines text) (Z.of_nat i - 1)) as [[x ->]| ->];
      [|done].
    by destruct (getitem_outcome (text_lines text) (Z.of_nat i)) as [[y ->]| ->]. }
  by destruct Ht as [-> | ->].
Qed.

Lemma extract_header_info_date_line_last_witness :
  extract_header_info "Starting Order
Spring Classic
Toronto, ON
July 14-16, 2024" = Raise IndexError.
Proof.
  refine (extract_header_info_date_line_last "Starting Order
Spring Classic
Toronto, ON
July 14-16, 2024" 3%nat "July 14-16, 2024" _ _ eq_refl eq_refl _ _).
  - by right.
  - lia.
  - by apply is_date_line_spec.
  - intros [|[|[|j]]] l Hj; [| | |lia]; intros [= <-];
      by apply is_date_line_false.
Defined.

(** X11: a "Detail Sheets" document with a date line but fewer than four
    lines has no line for one of the fixed positions and header extraction
    raises IndexError. *)
Theorem extract_header_info_detail_sheets_short text :
  infer_document_type text = "Detail Sheets" ->
  find_competition_date_line text <> None ->
  (length (text_lines text) < 4)%nat ->
  extract_header_info text = Raise IndexError.
Proof.
  intros Ht Hd Hlen. unfold extract_header_info. rewrite Ht.
  destruct (find_competition_date_line text) as [d|] eqn:E; [|done].
  destruct (index_of_date_line_found _ _ E) as (i & -> & _).
  assert ((Z.of_nat i =? -1) = false) as -> by (apply Z.eqb_neq; lia).
  simpl. unfold extract_detail_sheets_header_info.
  change 3 with (Z.of_nat 3).
  destruct (getitem_outcome (text_lines text) 0) as [[x ->]| ->]; [|done].
  destruct (getitem_outcome (text_lines text) 2) as [[y ->]| ->]; [|done].
  destruct (getitem_outcome (text_lines text) 1) as [[z ->]| ->]; [|done].
  simpl. rewrite (getitem_beyond _ 3) by lia. done.
Qed.

Lemma extract_header_info_detail_sheets_short_witness :
  extract_header_info "Spring Classic
July 14-16, 2024
Deductions" = Raise IndexError.
Proof.
  apply extract_header_info_detail_sheets_short;
    [reflexivity | discriminate | simpl; lia].
Defined.

(** X12: when the first line of an "Officials List" or "Starting Order"
    document is its date line and more lines follow, the index i-1 = -1
    counts from the end: Location is the last line of the document and
    CompetitionName is every line but the last, joined by blanks; Event is
    the second line. *)
Theorem extract_header_info_date_line_first text date second rest final :
  infer_document_type text = "Officials List"
  \/ infer_document_type text = "Starting Order" ->
  text_lines text = date :: second :: rest ->
  last (text_lines text) = Some final ->
  date_like date ->
  extract_header_info text
  = Ret (Dict {| CompetitionName :=
                   PyStr.strip
                     (PyStr.join " "
                        (take (length (text_lines text) - 1) (text_lines text)));
                 Location := PyStr.strip final;
                 DateRange := PyStr.strip date;
                 Event := PyStr.strip second;
                 DocumentType := infer_document_type text |}).
Proof.
  intros Ht Hlines Hlast Hlike.
  destruct (date_line_index text 0%nat date) as [Hfind Hidx];
    [lia | by rewrite Hlines | done | intros j l Hj; lia |].
  unfold extract_header_info. rewrite Hfind, Hidx.
  change (Z.of_nat 0 =? -1) with false.
  assert (extract_event_sheets_header_info (text_lines text)
            (infer_document_type text) (Z.of_nat 0)
          = Ret {| CompetitionName :=
                     PyStr.strip
                       (PyStr.join " "
                          (take (length (text_lines text) - 1) (text_lines text)));
                   Location := PyStr.strip final;
                   DateRange := PyStr.strip date;
                   Event := PyStr.strip second;
                   DocumentType := infer_document_type text |}) as ->.
  { unfold extract_event_sheets_header_info.
    change (Z.of_nat 0 - 1) with (-1). change (Z.of_nat 0 + 1) with (Z.of_nat 1).
    rewrite slice_to_minus_one, (getitem_minus_one _ _ Hlast).
    rewrite (getitem_lookup _ 0 date), (getitem_lookup _ 1 second);
      by rewrite ?Hlines. }
  by destruct Ht as [-> | ->].
Qed.

Lemma extract_header_info_date_line_first_witness :
  extract_header_info "July 14-16, 2024
Senior Women Free Skate
Spring Classic
Starting Order"
  = Ret (Dict {| CompetitionName :=
                   "July 14-16, 2024 Senior Women Free Skate Spring Classic";
                 Location := "Starting Order";
                 DateRange := "July 14-16, 2024";
                 Event := "Senior Women Free Skate";
                 DocumentType := "Starting Order" |}).
Proof.
  refine (extract_header_info_date_line_first "July 14-16, 2024
Senior Women Free Skate
Spring Classic
Starting Order" "July 14-16, 2024" "Senior Women Free Skate"
            ["Spring Classic"; "Starting Order"] "Starting Order"
            _ eq_refl eq_refl _).
  - by right.
  - by apply is_date_line_spec.
Defined.

Lemma lstrip_first s c rest :
  PyStr.lstrip s = String c rest -> PyStr.is_space c = false.
Proof.
  induction s as [|a s IH]; simpl; [done|].
  destruct (PyStr.is_space a) eqn:E; [done|]. by intros [= <- _].
Qed.

Lemma rstrip_first s c rest :
  PyStr.rstrip s = String c rest -> exists rest', s = String c rest'.
Proof.
  destruct s as [|a s]; simpl; [done|].
  destruct (PyStr.rstrip s); [destruct (PyStr.is_space a)|];
    intros [= <- _]; eauto.
Qed.

Lemma rstrip_last s before c :
  PyStr.rstrip s = before +:+ String c "" -> PyStr.is_space c = false.
Proof.
  revert before. induction s as [|a s IH]; intros before; simpl.
  - by destruct before.
  - destruct (PyStr.rstrip s) as [|b r] eqn:E.
    + destruct (PyStr.is_space a) eqn:Ea; [by destruct before|].
      destruct before as [|x before]; [by intros [= <-]|].
      rewrite append_cons. intros [= _ H]. by destruct before.
    + destruct before as [|x before]; [done|].
      rewrite append_cons. intros [= _ H]. by apply (IH before).
Qed.

Lemma strip_trimmed s : trimmed (PyStr.strip s).
Proof.
  unfold PyStr.strip. split.
  - intros c rest H. apply rstrip_first in H as [rest' H].
    by apply lstrip_first in H.
  - intros before c. apply rstrip_last.
Qed.

Lemma event_sheets_header_trimmed lines document_type i h :
  extract_event_sheets_header_info lines document_type i = Ret h ->
  trimmed (CompetitionName h) /\ trimmed (Location h)
  /\ trimmed (DateRange h) /\ trimmed (Event h)
  /\ DocumentType h = document_type.
Proof.
  unfold extract_event_sheets_header_info.
  destruct (PyList.getitem lines (i - 1)); [|done].
  destruct (PyList.getitem lines i); [|done].
  destruct (PyList.getitem lines (i + 1)); [|done].
  intros [= <-]. simpl. repeat split; apply strip_trimmed.
Qed.

Lemma detail_sheets_header_trimmed lines document_type h :
  extract_detail_sheets_header_info lines document_type = Ret h ->
  trimmed (CompetitionName h) /\ trimmed (Location h)
  /\ trimmed (DateRange h) /\ trimmed (Event h)
  /\ DocumentType h = document_type.
Proof.
  unfold extract_detail_sheets_header_info.
  destruct (PyList.getitem lines 0); [|done].
  destruct (PyList.getitem lines 2); [|done].
  destruct (PyList.getitem lines 1); [|done].
  destruct (PyList.getitem lines 3); [|done].
  intros [= <-]. simpl. repeat split; apply strip_trimmed.
Qed.

(** X13: every header that is returned filled has its four text fields
    free of white space at both ends, carries the type the classifier gave,
    and that type is "Officials List", "Starting Order" or "Detail Sheets":
    no filled header is ever produced for another type. *)
Theorem extract_header_info_fields text h :
  extract_header_info text = Ret (Dict h) ->
  trimmed (CompetitionName h) /\ trimmed (Location h)
  /\ trimmed (DateRange h) /\ trimmed (Event h)
  /\ DocumentType h = infer_document_type text
  /\ (DocumentType h = "Officials List" \/ DocumentType h = "Starting Order"
      \/ DocumentType h = "Detail Sheets")
  /\ find_competition_date_line text <> None.
Proof.
  unfold extract_header_info. intros H.
  assert (find_competition_date_line text <> None) as Hd.
  { intros E. rewrite E in H. simpl in H. by rewrite orb_true_r in H. }
  destruct (infer_document_type_range text) as [E|[E|[E|[E|E]]]];
    rewrite E in *; simpl in H;
    try discriminate; try (destruct (_ =? -1); discriminate).
  - destruct (_ =? -1); [done|].
    destruct (extract_event_sheets_header_info _ _ _) as [h'|] eqn:E';
      [|done]. injection H as <-.
    destruct (event_sheets_header_trimmed _ _ _ _ E') as (?&?&?&?&->). tauto.
  - destruct (_ =? -1); [done|].
    destruct (extract_event_sheets_header_info _ _ _) as [h'|] eqn:E';
      [|done]. injection H as <-.
    destruct (event_sheets_header_trimmed _ _ _ _ E') as (?&?&?&?&->). tauto.
  - destruct (_ =? -1); [done|].
    destruct (extract_detail_sheets_header_info _ _) as [h'|] eqn:E';
      [|done]. injection H as <-.
    destruct (detail_sheets_header_trimmed _ _ _ E') as (?&?&?&?&->). tauto.
Qed.

Lemma extract_header_info_fields_witness :
  let h := {| CompetitionName := "Spring Classic";
              Location := "Toronto, ON";
              DateRange := "July 14-16, 2024";
              Event := "Senior Women Free Skate";
              DocumentType := "Starting Order" |} in
  trimmed (CompetitionName h) /\ trimmed (Location h)
  /\ trimmed (DateRange h) /\ trimmed (Event h).
Proof.
  intros h.
  pose proof (extract_header_info_fields "  Spring Classic  
 Toronto, ON 
July 14-16, 2024 
  Senior Women Free Skate
Starting Order" h eq_refl) as H.
  tauto.
Defined.

(** * Further properties of the date patterns *)

Lemma all_ascii_complete c : In c all_ascii.
Proof.
  unfold all_ascii. rewrite <- (ascii_nat_embedding c).
  apply in_map, in_seq. pose proof (nat_ascii_bounded c). lia.
Qed.

Lemma only_decimal_spec p c :
  only_decimal p = true -> p c = true -> PyStr.is_decimal c = true.
Proof.
  intros H Hc. unfold only_decimal in H. rewrite forallb_forall in H.
  specialize (H c (all_ascii_complete c)). by rewrite Hc in H.
Qed.

Lemma count_decimal_append a b :
  count_decimal (a +:+ b) = (count_decimal a + count_decimal b)%nat.
Proof.
  induction a as [|c a IH]; [done|]. rewrite append_cons. simpl.
  rewrite IH. by destruct (PyStr.is_decimal c).
Qed.

Lemma matches_min_digits r prev u rest :
  Matches r prev u rest -> (min_digits r <= count_decimal u)%nat.
Proof.
  induction 1; simpl; try lia.
  - destruct (only_decimal p) eqn:E; [|lia].
    by rewrite (only_decimal_spec p c E).
  - rewrite count_decimal_append. lia.
Qed.

Lemma has_match_min_digits r line :
  has_match r line -> (min_digits r <= count_decimal line)%nat.
Proof.
  intros (before & u & rest & -> & H). apply matches_min_digits in H.
  rewrite !count_decimal_append. lia.
Qed.

(** X14: a line the locator takes for a date line has at least six decimal
    digits, two groups for days and a year.  A line with fewer, such as a
    month and a year or one single-digit day with a year, is never
    returned. *)
Theorem date_line_has_six_digits line :
  is_date_line line = true -> (6 <= count_decimal line)%nat.
Proof.
  intros H. apply is_date_line_spec in H as [H|H];
    apply has_match_min_digits in H.
  - assert (min_digits written_month_pattern = 6%nat) as E by reflexivity. lia.
  - assert (min_digits numeric_range_pattern = 12%nat) as E by reflexivity. lia.
Qed.

Lemma date_line_has_six_digits_witness :
  (6 <= count_decimal "July 14-16, 2024")%nat.
Proof. by apply date_line_has_six_digits. Defined.

Lemma seqs_cons a b l : seqs (a :: b :: l) = Seq a (seqs (b :: l)).
Proof. reflexivity. Qed.

Lemma seqs_app_matches l1 l2 prev u v rest :
  l1 <> [] -> l2 <> [] ->
  Matches (seqs l1) prev u (v +:+ rest) ->
  Matches (seqs l2) (last_char prev u) v rest ->
  Matches (seqs (l1 ++ l2)) prev (u +:+ v) rest.
Proof.
  intros H1 H2. revert prev u. induction l1 as [|a l1 IH]; intros prev u Hu Hv;
    [done|].
  destruct l1 as [|b l1].
  - destruct l2 as [|c l2]; [done|]. simpl app. rewrite seqs_cons.
    by apply M_Seq.
  - rewrite seqs_cons in Hu. inversion Hu as [| |? ? ? u1 u2 ? Ha Hb| | | | |];
      subst.
    change ((a :: b :: l1) ++ l2) with (a :: (b :: l1) ++ l2).
    destruct ((b :: l1) ++ l2) as [|x l'] eqn:E; [done|]. rewrite seqs_cons.
    rewrite append_assoc. apply M_Seq.
    + rewrite append_assoc. exact Ha.
    + apply IH; [done|exact Hb|]. by rewrite <- last_char_append.
Qed.

Lemma digits12_matches s prev rest : digits12 s -> Matches d12 prev s rest.
Proof.
  intros [(d & -> & H)|(d1 & d2 & -> & H1 & H2)]; unfold d12.
  - apply (seq_matches _ _ _ (String d "") ""); [done|by constructor|].
    apply M_OptNone.
  - apply (seq_matches _ _ _ (String d1 "") (String d2 ""));
      [done|by constructor|]. apply M_OptSome. by constructor.
Qed.

Lemma digits4_matches s prev rest : digits4 s -> Matches d4 prev s rest.
Proof.
  intros (y1 & y2 & y3 & y4 & -> & H1 & H2 & H3 & H4). unfold d4.
  rewrite !seqs_cons.
  apply (seq_matches _ _ _ (String y1 "") (String y2 (String y3 (String y4 ""))));
    [done|by constructor|].
  apply (seq_matches _ _ _ (String y2 "") (String y3 (String y4 "")));
    [done|by constructor|].
  apply (seq_matches _ _ _ (String y3 "") (String y4 ""));
    [done|by constructor|].
  by constructor.
Qed.

Lemma digits12_first s : digits12 s -> word_at (next_char s) = true.
Proof.
  intros [(d & -> & H)|(d1 & d2 & -> & H & _)]; simpl;
    unfold PyStr.is_word, PyStr.is_digit; rewrite H; by rewrite orb_true_r.
Qed.

Lemma digits12_nonempty s : digits12 s -> s <> "".
Proof. by intros [(d & -> & H)|(d1 & d2 & -> & H & _)]. Qed.

Lemma digits4_last s prev : digits4 s -> word_at (last_char prev s) = true.
Proof.
  intros (y1 & y2 & y3 & y4 & -> & _ & _ & _ & H). simpl.
  unfold PyStr.is_word, PyStr.is_digit. rewrite H. by rewrite orb_true_r.
Qed.

(** What may stand between the two days of a written range: a dash or
    "to", with or without blanks around it. *)
Lemma range_link_matches link prev rest :
  In link ["-"; " - "; "to"; " to "; " -"; "- "; " to"; "to "] ->
  Matches (seqs [Opt (lit "-"); Opt s_; Opt to_or_dash; Opt s_]) prev link rest.
Proof.
  assert (forall p r, Matches s_ p " " r) as Hs by (intros; by constructor).
  assert (forall p r, Matches to_or_dash p "to" r) as Hto
    by (intros; apply M_AltL, (lit_matches "to")).
  assert (forall p r, Matches to_or_dash p "-" r) as Hdash
    by (intros; apply M_AltR, (lit_matches "-")).
  assert (forall p r, Matches (Opt (lit "-")) p "-" r) as Hd
    by (intros; apply M_OptSome, (lit_matches "-")).
  intros H. simpl in H. rewrite !seqs_cons.
  destruct H as [<-|[<-|[<-|[<-|[<-|[<-|[<-|[<-|[]]]]]]]]].
  - apply (seq_matches _ _ _ "-" ""); [done|apply Hd|].
    apply (seq_matches _ _ _ "" ""); [done|apply M_OptNone|].
    apply (seq_matches _ _ _ "" ""); [done|apply M_OptNone|]. apply M_OptNone.
  - apply (seq_matches _ _ _ "" " - "); [done|apply M_OptNone|].
    apply (seq_matches _ _ _ " " "- "); [done|apply M_OptSome, Hs|].
    apply (seq_matches _ _ _ "-" " "); [done|apply M_OptSome, Hdash|].
    apply M_OptSome, Hs.
  - apply (seq_matches _ _ _ "" "to"); [done|apply M_OptNone|].
    apply (seq_matches _ _ _ "" "to"); [done|apply M_OptNone|].
    apply (seq_matches _ _ _ "to" ""); [done|apply M_OptSome, Hto|].
    apply M_OptNone.
  - apply (seq_matches _ _ _ "" " to "); [done|apply M_OptNone|].
    apply (seq_matches _ _ _ " " "to "); [done|apply M_OptSome, Hs|].
    apply (seq_matches _ _ _ "to" " "); [done|apply M_OptSome, Hto|].
    apply M_OptSome, Hs.
  - apply (seq_matches _ _ _ "" " -"); [done|apply M_OptNone|].
    apply (seq_matches _ _ _ " " "-"); [done|apply M_OptSome, Hs|].
    apply (seq_matches _ _ _ "-" ""); [done|apply M_OptSome, Hdash|].
    apply M_OptNone.
  - apply (seq_matches _ _ _ "-" " "); [done|apply Hd|].
    apply (seq_matches _ _ _ " " ""); [done|apply M_OptSome, Hs|].
    apply (seq_matches _ _ _ "" ""); [done|apply M_OptNone|]. apply M_OptNone.
  - apply (seq_matches _ _ _ "" " to"); [done|apply M_OptNone|].
    apply (seq_matches _ _ _ " " "to"); [done|apply M_OptSome, Hs|].
    apply (seq_matches _ _ _ "to" ""); [done|apply M_OptSome, Hto|].
    apply M_OptNone.
  - apply (seq_matches _ _ _ "" "to "); [done|apply M_OptNone|].
    apply (seq_matches _ _ _ "" "to "); [done|apply M_OptNone|].
    apply (seq_matches _ _ _ "to" " "); [done|apply M_OptSome, Hto|].
    apply M_OptSome, Hs.
Qed.

(** The second month of a range that crosses a month boundary: absent, or
    a month name and a blank. *)
Lemma second_month_matches second prev rest :
  second = "" \/ (exists m, In m month_names /\ second = m +:+ " ") ->
  Matches (seqs [Opt month; Opt s_]) prev second rest.
Proof.
  rewrite seqs_cons. intros [->|(m & Hm & ->)].
  - apply (seq_matches _ _ _ "" ""); [done|apply M_OptNone|]. apply M_OptNone.
  - apply M_Seq; [by apply M_OptSome, month_matches|].
    apply M_OptSome. by constructor.
Qed.

Lemma day_year_matches day comma year prev rest :
  digits12 day -> comma = "" \/ comma = "," -> digits4 year ->
  Matches (seqs [d12; Opt (lit ","); s_; d4]) prev
    (day +:+ comma +:+ " " +:+ year) rest.
Proof.
  intros Hday Hcomma Hyear. rewrite !seqs_cons.
  apply M_Seq; [by apply digits12_matches|].
  apply M_Seq.
  - destruct Hcomma as [-> | ->]; [apply M_OptNone|].
    apply M_OptSome, (lit_matches ",").
  - apply (seq_matches _ _ _ " " year); [done|by constructor|].
    by apply digits4_matches.
Qed.

(** X15: the written dates the locator recognises as ranges.  A month
    name at a word boundary, a blank, a day of one or two digits, a dash or
    "to" with or without blanks around it, optionally a second month name
    and a blank, a second day, optionally a comma, a blank and a four-digit
    year make a date line, whatever text follows. *)
Theorem written_range_is_date_line before m day1 link second day2 comma year after :
  ends_word_free before ->
  In m month_names ->
  digits12 day1 ->
  In link ["-"; " - "; "to"; " to "; " -"; "- "; " to"; "to "] ->
  second = "" \/ (exists m2, In m2 month_names /\ second = m2 +:+ " ") ->
  digits12 day2 ->
  comma = "" \/ comma = "," ->
  digits4 year ->
  is_date_line
    (before +:+ (m +:+ " " +:+ day1 +:+ link +:+ second +:+ day2 +:+ comma
                 +:+ " " +:+ year) +:+ after) = true.
Proof.
  intros Hbefore Hm Hd1 Hlink Hsecond Hd2 Hcomma Hyear.
  apply is_date_line_spec. left. eexists before, _, after. split; [done|].
  unfold written_month_pattern.
  change [WordB; month; s_; d12; Opt (lit "-"); Opt s_; Opt to_or_dash; Opt s_;
          Opt month; Opt s_; d12; Opt (lit ","); s_; d4]
    with ([WordB; month; s_; d12]
          ++ [Opt (lit "-"); Opt s_; Opt to_or_dash; Opt s_]
          ++ [Opt month; Opt s_] ++ [d12; Opt (lit ","); s_; d4]).
  replace (m +:+ " " +:+ day1 +:+ link +:+ second +:+ day2 +:+ comma +:+ " " +:+ year)
    with ((m +:+ " " +:+ day1) +:+ link +:+ second
          +:+ (day2 +:+ comma +:+ " " +:+ year))
    by (by rewrite !append_assoc).
  apply seqs_app_matches; [done..| |].
  - rewrite !seqs_cons.
    apply (seq_matches _ _ _ "" (m +:+ " " +:+ day1)); [done| |].
    + constructor. unfold ends_word_free in Hbefore. rewrite Hbefore.
      rewrite !append_assoc, next_char_append.
      * by rewrite (month_starts_with_letter _ Hm).
      * intros ->. by apply month_starts_with_letter in Hm.
    + apply M_Seq; [by apply month_matches|].
      apply (seq_matches _ _ _ " " day1); [done|by constructor|].
      by apply digits12_matches.
  - apply seqs_app_matches; [done..|by apply range_link_matches|].
    apply seqs_app_matches; [done..|by apply second_month_matches|].
    by apply day_year_matches.
Qed.

Lemma written_range_is_date_line_witness :
  is_date_line "Dates: Jun 28 - Jul 1, 2024 (Friday)" = true.
Proof.
  apply (written_range_is_date_line "Dates: " "Jun" "28" " - " "Jul " "1" ","
           "2024" " (Friday)").
  - reflexivity.
  - simpl. tauto.
  - right. by exists "2"%char, "8"%char.
  - simpl. tauto.
  - right. exists "Jul". split; [simpl; tauto|done].
  - left. by exists "1"%char.
  - by right.
  - by exists "2"%char, "0"%char, "2"%char, "4"%char.
Defined.

Lemma sep_matches sep prev rest :
  sep = "-" \/ sep = "/" -> Matches sep_ prev sep rest.
Proof.
  intros [-> | ->]; [apply M_AltL, (lit_matches "-")|apply M_AltR, (lit_matches "/")].
Qed.

Lemma numeric_date_matches s prev rest :
  numeric_date s -> Matches (seqs [d12; sep_; d12; sep_; d4]) prev s rest.
Proof.
  intros (day & sep1 & month & sep2 & year & -> & Hd & Hm & Hy & H1 & H2).
  rewrite !seqs_cons.
  apply M_Seq; [by apply digits12_matches|].
  apply M_Seq; [by apply sep_matches|].
  apply M_Seq; [by apply digits12_matches|].
  apply M_Seq; [by apply sep_matches|].
  by apply digits4_matches.
Qed.

Lemma numeric_date_first s rest :
  numeric_date s -> word_at (next_char (s +:+ rest)) = true.
Proof.
  intros (day & sep1 & month & sep2 & year & -> & Hd & _).
  rewrite !append_assoc, next_char_append by (by apply digits12_nonempty).
  by apply digits12_first.
Qed.

Lemma numeric_date_last s prev :
  numeric_date s -> word_at (last_char prev s) = true.
Proof.
  intros (day & sep1 & month & sep2 & year & -> & _ & _ & Hy & _).
  rewrite !last_char_append. by apply digits4_last.
Qed.

(** What stands between the two dates of a range in figures. *)
Lemma numeric_link_matches link prev rest :
  In link ["to"; "-"; " to "; " - "; " to"; "to "; " -"; "- "] ->
  Matches (seqs [Opt s_; to_or_dash; Opt s_]) prev link rest.
Proof.
  assert (forall p r, Matches (Opt s_) p " " r) as Hs
    by (intros; apply M_OptSome; by constructor).
  assert (forall p r, Matches to_or_dash p "to" r) as Hto
    by (intros; apply M_AltL, (lit_matches "to")).
  assert (forall p r, Matches to_or_dash p "-" r) as Hdash
    by (intros; apply M_AltR, (lit_matches "-")).
  intros H. simpl in H. rewrite !seqs_cons.
  destruct H as [<-|[<-|[<-|[<-|[<-|[<-|[<-|[<-|[]]]]]]]]].
  - apply (seq_matches _ _ _ "" "to"); [done|apply M_OptNone|].
    apply (seq_matches _ _ _ "to" ""); [done|apply Hto|apply M_OptNone].
  - apply (seq_matches _ _ _ "" "-"); [done|apply M_OptNone|].
    apply (seq_matches _ _ _ "-" ""); [done|apply Hdash|apply M_OptNone].
  - apply (seq_matches _ _ _ " " "to "); [done|apply Hs|].
    apply (seq_matches _ _ _ "to" " "); [done|apply Hto|apply Hs].
  - apply (seq_matches _ _ _ " " "- "); [done|apply Hs|].
    apply (seq_matches _ _ _ "-" " "); [done|apply Hdash|apply Hs].
  - apply (seq_matches _ _ _ " " "to"); [done|apply Hs|].
    apply (seq_matches _ _ _ "to" ""); [done|apply Hto|apply M_OptNone].
  - apply (seq_matches _ _ _ "" "to "); [done|apply M_OptNone|].
    apply (seq_matches _ _ _ "to" " "); [done|apply Hto|apply Hs].
  - apply (seq_matches _ _ _ " " "-"); [done|apply Hs|].
    apply (seq_matches _ _ _ "-" ""); [done|apply Hdash|apply M_OptNone].
  - apply (seq_matches _ _ _ "" "- "); [done|apply M_OptNone|].
    apply (seq_matches _ _ _ "-" " "); [done|apply Hdash|apply Hs].
Qed.

(** X16: the ranges in figures the locator recognises.  Two dates, each a
    day and a month of one or two digits and a four-digit year with "-" or
    "/" between them, joined by "to" or a dash with or without blanks,
    standing between word boundaries, make a date line. *)
Theorem numeric_range_is_date_line before first link second after :
  ends_word_free before ->
  numeric_date first ->
  In link ["to"; "-"; " to "; " - "; " to"; "to "; " -"; "- "] ->
  numeric_date second ->
  starts_word_free after ->
  is_date_line (before +:+ (first +:+ link +:+ second) +:+ after) = true.
Proof.
  intros Hbefore Hfirst Hlink Hsecond Hafter.
  apply is_date_line_spec. right. eexists before, _, after. split; [done|].
  unfold numeric_range_pattern.
  change [WordB; d12; sep_; d12; sep_; d4; Opt s_; to_or_dash; Opt s_;
          d12; sep_; d12; sep_; d4; WordB]
    with ([WordB] ++ [d12; sep_; d12; sep_; d4]
          ++ [Opt s_; to_or_dash; Opt s_]
          ++ [d12; sep_; d12; sep_; d4] ++ [WordB]).
  replace (first +:+ link +:+ second)
    with ("" +:+ first +:+ link +:+ second +:+ "")
    by (by rewrite append_nil, !append_nil_r).
  apply seqs_app_matches; [done..| |].
  - constructor. unfold ends_word_free in Hbefore. rewrite Hbefore.
    rewrite !append_assoc. by rewrite numeric_date_first.
  - apply seqs_app_matches; [done..|by apply numeric_date_matches|].
    apply seqs_app_matches; [done..|by apply numeric_link_matches|].
    apply seqs_app_matches; [done..|by apply numeric_date_matches|].
    constructor. unfold starts_word_free in Hafter. rewrite Hafter.
    by rewrite numeric_date_last.
Qed.

Lemma numeric_range_is_date_line_witness :
  is_date_line "Held 14/07/2024 to 16/07/2024." = true.
Proof.
  assert (forall d1 d2 m1 m2 : ascii,
            PyStr.is_decimal d1 = true -> PyStr.is_decimal d2 = true ->
            PyStr.is_decimal m1 = true -> PyStr.is_decimal m2 = true ->
            numeric_date
              (String d1 (String d2 "") +:+ "/" +:+ String m1 (String m2 "")
               +:+ "/" +:+ "2024")) as Hdate.
  { intros d1 d2 m1 m2 H1 H2 H3 H4.
    exists (String d1 (String d2 "")), "/", (String m1 (String m2 "")), "/", "2024".
    split; [done|]. split; [right; by exists d1, d2|].
    split; [right; by exists m1, m2|].
    split; [by exists "2"%char, "0"%char, "2"%char, "4"%char|]. tauto. }
  apply (numeric_range_is_date_line "Held " "14/07/2024" " to " "16/07/2024" ".").
  - reflexivity.
  - by apply (Hdate "1"%char "4"%char "0"%char "7"%char).
  - simpl. tauto.
  - by apply (Hdate "1"%char "6"%char "0"%char "7"%char).
  - reflexivity.
Defined.

(** * Further properties of rank validity *)

Lemma all_chars_append p a b :
  PyStr.all_chars p (a +:+ b) = PyStr.all_chars p a && PyStr.all_chars p b.
Proof.
  induction a as [|c a IH]; [done|]. rewrite append_cons. simpl. rewrite IH.
  by destruct (p c).
Qed.

Lemma all_chars_impl (p q : ascii -> bool) s :
  (forall c, p c = true -> q c = true) ->
  PyStr.all_chars p s = true -> PyStr.all_chars q s = true.
Proof.
  intros H. induction s as [|c s IH]; simpl; [done|].
  destruct (p c) eqn:E; [|done]. by rewrite (H c E).
Qed.

Lemma drop_underscores_free s prev :
  PyStr.all_chars not_underscore s = true ->
  match prev with Some p => Ascii.eqb p "_" = false | None => True end ->
  PyFloat.drop_underscores prev s = Some s.
Proof.
  revert prev. induction s as [|c s IH]; intros prev Hs Hp; simpl in *.
  - destruct prev as [p|]; [by rewrite Hp|done].
  - unfold not_underscore in Hs at 1.
    destruct (Ascii.eqb c "_") eqn:Hc; [done|]. simpl in Hs.
    assert (match prev with Some p => Ascii.eqb p "_" | None => false end = false)
      as -> by (destruct prev; done).
    simpl. by rewrite (IH (Some c)).
Qed.

Lemma lstrip_blank_append l t :
  PyStr.all_chars PyFloat.is_blank l = true ->
  PyFloat.lstrip_blank (l +:+ t) = PyFloat.lstrip_blank t.
Proof.
  induction l as [|c l IH]; [done|]. rewrite append_cons. simpl.
  destruct (PyFloat.is_blank c); [apply IH|done].
Qed.

Lemma rstrip_blank_blank r :
  PyStr.all_chars PyFloat.is_blank r = true -> PyFloat.rstrip_blank r = "".
Proof.
  induction r as [|c r IH]; simpl; [done|].
  destruct (PyFloat.is_blank c); [|done]. intros H. by rewrite (IH H).
Qed.

Lemma rstrip_blank_append t r :
  PyStr.all_chars PyFloat.is_blank r = true ->
  PyFloat.rstrip_blank (t +:+ r) = PyFloat.rstrip_blank t.
Proof.
  intros Hr. induction t as [|c t IH].
  - rewrite append_nil. by apply rstrip_blank_blank.
  - rewrite append_cons. simpl. by rewrite IH.
Qed.

Lemma rstrip_blank_keep s :
  PyStr.all_chars not_blank s = true -> PyFloat.rstrip_blank s = s.
Proof.
  induction s as [|c s IH]; simpl; [done|].
  unfold not_blank at 1. destruct (PyFloat.is_blank c) eqn:Hc; [done|].
  simpl. intros Hs. rewrite (IH Hs). by destruct s.
Qed.

Lemma span_digits_append a t :
  PyStr.all_chars PyStr.is_decimal a = true ->
  match t with String c _ => PyStr.is_decimal c = false | EmptyString => True end ->
  PyFloat.span_digits (a +:+ t) = (String.length a, t).
Proof.
  intros Ha Ht. induction a as [|c a IH].
  - rewrite append_nil. destruct t as [|c t]; [done|]. simpl. by rewrite Ht.
  - rewrite append_cons. simpl in *. destruct (PyStr.is_decimal c); [|done].
    by rewrite (IH Ha).
Qed.

Lemma is_valid_rank_parses s : PyFloat.parses s = true -> is_valid_rank s = true.
Proof. intros H. unfold is_valid_rank. rewrite H. by destruct (_ || _). Qed.

Lemma decimal_char c :
  PyStr.is_decimal c = true ->
  not_underscore c = true /\ not_blank c = true
  /\ (Ascii.eqb c "+" || Ascii.eqb c "-") = false /\ Ascii.eqb c "." = false.
Proof.
  destruct c as [[] [] [] [] [] [] [] []]; try discriminate; by repeat split.
Qed.

Lemma blank_char c : PyFloat.is_blank c = true -> not_underscore c = true.
Proof. destruct c as [[] [] [] [] [] [] [] []]; done. Qed.

(** The number itself, without the blanks around it. *)
Lemma parse_number_decimal sign a b :
  sign = "" \/ sign = "+" \/ sign = "-" ->
  PyStr.all_chars PyStr.is_decimal a = true ->
  PyStr.all_chars PyStr.is_decimal b = true ->
  (a <> "" ->
   PyFloat.parse_number (sign +:+ a) = Some "")
  /\ (a <> "" \/ b <> "" ->
      PyFloat.parse_number (sign +:+ a +:+ "." +:+ b) = Some "").
Proof.
  intros Hsign Ha Hb.
  assert (forall t, (match t with
                     | String c _ => (Ascii.eqb c "+" || Ascii.eqb c "-") = false
                     | EmptyString => True
                     end) ->
                    PyFloat.skip_sign (sign +:+ t) = t) as Hskip.
  { intros t Ht. destruct Hsign as [->|[->| ->]]; try done.
    rewrite append_nil. destruct t as [|c t]; [done|]. simpl. by rewrite Ht. }
  assert (forall t, match a +:+ t with
                    | String c _ => t = "" \/ t = "." +:+ b ->
                        (Ascii.eqb c "+" || Ascii.eqb c "-") = false
                    | EmptyString => True
                    end) as Hfirst.
  { intros t. destruct a as [|c a]; simpl.
    - rewrite append_nil. destruct t as [|c t]; [done|].
      intros [?|Ht]; [done|]. by injection Ht as -> _.
    - rewrite append_cons. intros _. simpl in Ha.
      destruct (PyStr.is_decimal c) eqn:Hc; [|done].
      by destruct (decimal_char c Hc) as (_ & _ & -> & _). }
  split.
  - intros Hne. unfold PyFloat.parse_number. rewrite Hskip.
    + rewrite <- (append_nil_r a), span_digits_append by done.
      destruct a; [done|]. reflexivity.
    + specialize (Hfirst ""). rewrite append_nil_r in Hfirst.
      destruct a; [done|]. apply Hfirst. by left.
  - intros Hne. unfold PyFloat.parse_number. rewrite Hskip.
    + rewrite span_digits_append by done.
      change ("." +:+ b) with (String "." b). cbv beta iota.
      change (Ascii.eqb "." ".") with true. cbv beta iota.
      rewrite <- (append_nil_r b), span_digits_append by done.
      destruct a, b; simpl; try done. by destruct Hne.
    + specialize (Hfirst ("." +:+ b)). destruct (a +:+ "." +:+ b); [done|].
      apply Hfirst. by right.
Qed.

(** X17: a rank need not be a bare number.  A decimal number, with an
    optional sign, digits before or after the point, and ASCII blanks,
    tabs or line breaks around it, is a valid rank: "5.5", "-3", ".5",
    " 12 ".  The point may be left out when there are digits before it. *)
Theorem padded_decimal_is_valid_rank l sign a b r :
  PyStr.all_chars PyFloat.is_blank l = true ->
  PyStr.all_chars PyFloat.is_blank r = true ->
  sign = "" \/ sign = "+" \/ sign = "-" ->
  PyStr.all_chars PyStr.is_decimal a = true ->
  PyStr.all_chars PyStr.is_decimal b = true ->
  (a <> "" -> is_valid_rank (l +:+ (sign +:+ a) +:+ r) = true)
  /\ (a <> "" \/ b <> "" ->
      is_valid_rank (l +:+ (sign +:+ a +:+ "." +:+ b) +:+ r) = true).
Proof.
  intros Hl Hr Hsign Ha Hb.
  destruct (parse_number_decimal sign a b Hsign Ha Hb) as [Hint Hfrac].
  assert (PyStr.all_chars not_underscore sign = true
          /\ PyStr.all_chars not_blank sign = true) as [Hs1 Hs2]
    by (destruct Hsign as [->|[->| ->]]; done).
  assert (forall core,
            PyStr.all_chars not_underscore core = true ->
            PyStr.all_chars not_blank core = true ->
            core <> "" ->
            PyFloat.parse_number core = Some "" ->
            is_valid_rank (l +:+ core +:+ r) = true) as Hcore.
  { intros core Hu Hnb Hne Hparse. apply is_valid_rank_parses.
    unfold PyFloat.parses. rewrite drop_underscores_free; [|
      rewrite !all_chars_append, Hu,
        (all_chars_impl _ _ _ blank_char Hl), (all_chars_impl _ _ _ blank_char Hr);
      done | done].
    rewrite lstrip_blank_append by done.
    assert (PyFloat.lstrip_blank (core +:+ r) = core +:+ r) as ->.
    { destruct core as [|c core]; [done|]. rewrite append_cons. simpl.
      simpl in Hnb. unfold not_blank in Hnb at 1.
      by destruct (PyFloat.is_blank c). }
    rewrite rstrip_blank_append, rstrip_blank_keep by done.
    destruct core; [done|]. by rewrite Hparse. }
  assert (PyStr.all_chars not_underscore a = true
          /\ PyStr.all_chars not_blank a = true) as [Ha1 Ha2].
  { split; apply (all_chars_impl PyStr.is_decimal); try done;
      intros c Hc; by destruct (decimal_char c Hc) as (?&?&_). }
  assert (PyStr.all_chars not_underscore b = true
          /\ PyStr.all_chars not_blank b = true) as [Hb1 Hb2].
  { split; apply (all_chars_impl PyStr.is_decimal); try done;
      intros c Hc; by destruct (decimal_char c Hc) as (?&?&_). }
  split.
  - intros Hne. apply Hcore; [by rewrite all_chars_append, Hs1, Ha1|
      by rewrite all_chars_append, Hs2, Ha2 | | by apply Hint].
    destruct sign; [by rewrite append_nil|done].
  - intros Hne. apply Hcore; [| | |by apply Hfrac].
    + by rewrite !all_chars_append, Hs1, Ha1, Hb1.
    + by rewrite !all_chars_append, Hs2, Ha2, Hb2.
    + destruct sign; [|done]. rewrite append_nil. by destruct a.
Qed.

Lemma padded_decimal_is_valid_rank_witness :
  is_valid_rank " -12" = true /\ is_valid_rank " -12.50" = true.
Proof.
  destruct (padded_decimal_is_valid_rank " " "-" "12" "50" ""
              eq_refl eq_refl (or_intror (or_intror eq_refl)) eq_refl eq_refl)
    as [H1 H2].
  split; [by apply H1|apply H2; by left].
Defined.

Lemma drop_underscores_start l c rest prev t :
  PyStr.all_chars PyFloat.is_blank l = true ->
  Ascii.eqb c "_" = false ->
  PyFloat.drop_underscores prev (l +:+ String c rest) = Some t ->
  exists rest', t = l +:+ String c rest'.
Proof.
  intros Hl Hc. revert prev t. induction l as [|b l IH]; intros prev t.
  - rewrite append_nil. simpl. rewrite Hc.
    destruct (_ && _); [done|].
    destruct (PyFloat.drop_underscores (Some c) rest) as [t'|]; [|done].
    intros [= <-]. by exists t'.
  - rewrite append_cons. simpl in *.
    destruct (PyFloat.is_blank b) eqn:Hb; [|done].
    pose proof (blank_char b Hb) as Hu. unfold not_underscore in Hu.
    destruct (Ascii.eqb b "_"); [done|].
    destruct (_ && _); [done|].
    destruct (PyFloat.drop_underscores (Some b) (l +:+ String c rest))
      as [t'|] eqn:E; [|done].
    intros [= <-]. destruct (IH Hl _ _ E) as [rest' ->]. by exists rest'.
Qed.

Lemma rstrip_blank_start c s :
  PyFloat.is_blank c = false ->
  exists rest, PyFloat.rstrip_blank (String c s) = String c rest.
Proof.
  intros Hc. simpl. rewrite Hc. destruct (PyFloat.rstrip_blank s); eauto.
Qed.

Lemma tolower_not c (x : ascii) :
  PyStr.between 97 122 x = true ->
  c <> x -> c <> ascii_of_N (PyStr.code x - 32) ->
  Ascii.eqb (PyFloat.tolower c) x = false.
Proof.
  intros Hx H1 H2. apply Ascii.eqb_neq. intros E. unfold PyFloat.tolower in E.
  destruct (PyStr.between 65 90 c) eqn:Hc; [|done].
  apply H2. rewrite <- E. unfold PyStr.code. rewrite N_ascii_embedding.
  - replace (N_of_ascii c + 32 - 32)%N with (N_of_ascii c) by lia.
    by rewrite ascii_N_embedding.
  - unfold PyStr.between, PyStr.code in Hc.
    apply andb_true_iff in Hc as [_ Hc]. apply N.leb_le in Hc. lia.
Qed.

(** A string whose first character after the blanks cannot start a number
    is not one [float] parses. *)
Lemma parses_bad_start l c rest :
  PyStr.all_chars PyFloat.is_blank l = true ->
  PyFloat.is_blank c = false ->
  PyStr.is_decimal c = false ->
  ~ In c ["+"; "-"; "."; "i"; "I"; "n"; "N"]%char ->
  PyFloat.parses (l +:+ String c rest) = false.
Proof.
  intros Hl Hb Hd Hc. simpl in Hc. unfold PyFloat.parses.
  destruct (Ascii.eqb c "_") eqn:Hu.
  { apply Ascii.eqb_eq in Hu as ->.
    assert (forall prev, match prev with
                         | Some p => PyStr.is_decimal p = false
                         | None => True
                         end ->
                         PyFloat.drop_underscores prev (l +:+ String "_" rest) = None)
      as H.
    { clear Hb Hd Hc. induction l as [|b l IH]; intros prev Hp.
      - rewrite append_nil. simpl. destruct prev as [p|]; [by rewrite Hp|done].
      - rewrite append_cons. simpl in *.
        destruct (PyFloat.is_blank b) eqn:Hb; [|done].
        pose proof (blank_char b Hb) as Hu. unfold not_underscore in Hu.
        destruct (Ascii.eqb b "_"); [done|]. destruct (_ && _); [done|].
        rewrite (IH Hl (Some b)); [done|].
        by destruct b as [[] [] [] [] [] [] [] []]. }
    by rewrite (H None). }
  destruct (PyFloat.drop_underscores None (l +:+ String c rest)) as [t|] eqn:E;
    [|done].
  destruct (drop_underscores_start _ _ _ _ _ Hl Hu E) as [rest' ->].
  rewrite lstrip_blank_append by done. simpl PyFloat.lstrip_blank. rewrite Hb.
  destruct (rstrip_blank_start c rest' Hb) as [rest'' ->].
  simpl PyFloat.is_empty. cbv iota.
  assert (PyFloat.skip_sign (String c rest'') = String c rest'') as Hskip.
  { simpl. destruct (Ascii.eqb_spec c "+") as [->|_]; [tauto|].
    destruct (Ascii.eqb_spec c "-") as [->|_]; [tauto|]. done. }
  assert (PyFloat.parse_number (String c rest'') = None) as ->.
  { unfold PyFloat.parse_number. rewrite Hskip. simpl. rewrite Hd.
    destruct (Ascii.eqb_spec c ".") as [->|_]; [tauto|]. done. }
  unfold PyFloat.parse_inf_or_nan. rewrite Hskip. simpl.
  assert (c <> "i" /\ c <> "I" /\ c <> "n" /\ c <> "N")%char
    as (Hi & HI & Hn & HN) by (repeat split; intros ->; tauto).
  by rewrite (tolower_not c "i"), (tolower_not c "n").
Qed.

Lemma all_chars_false_at p l c rest :
  p c = false -> PyStr.all_chars p (l +:+ String c rest) = false.
Proof.
  intros Hc. rewrite all_chars_append. simpl. rewrite Hc.
  by rewrite andb_false_r.
Qed.

(** X18: a cell of text is no rank.  When the first character after any
    leading blanks is not a digit, a sign, a point or one of i, I, n, N
    (with which "inf" and "nan" begin), and the cell is not exactly "WD",
    the cell is not a valid rank: names, "DNS", "Rank", "(3)",
    "Page 1 of 1" are all dropped by the filter. *)
Theorem text_is_not_valid_rank l c rest :
  PyStr.all_chars PyFloat.is_blank l = true ->
  PyFloat.is_blank c = false ->
  PyStr.is_digit c = false ->
  ~ In c ["+"; "-"; "."; "i"; "I"; "n"; "N"]%char ->
  l +:+ String c rest <> "WD" ->
  is_valid_rank (l +:+ String c rest) = false.
Proof.
  intros Hl Hb Hd Hc Hwd. unfold is_valid_rank.
  assert (PyStr.isdigit (l +:+ String c rest) = false) as ->.
  { unfold PyStr.isdigit. rewrite (all_chars_false_at _ _ _ _ Hd).
    by destruct (l +:+ String c rest). }
  assert (String.eqb (l +:+ String c rest) "WD" = false) as ->
    by (by apply String.eqb_neq).
  simpl. apply parses_bad_start; try done.
  unfold PyStr.is_digit in Hd. by destruct (PyStr.is_decimal c).
Qed.

Lemma text_is_not_valid_rank_witness :
  is_valid_rank "Page 1 of 1" = false /\ is_valid_rank " (3)" = false.
Proof.
  split.
  - apply (text_is_not_valid_rank "" "P" "age 1 of 1"); try done.
    simpl. intros H. repeat (destruct H as [H|H]; [discriminate|]). done.
  - apply (text_is_not_valid_rank " " "(" "3)"); try done.
    simpl. intros H. repeat (destruct H as [H|H]; [discriminate|]). done.
Defined.

(** X19: an empty cell, or one of ASCII blanks, tabs and line breaks
    only, is not a valid rank: rows without a rank are dropped. *)
Theorem blank_is_not_valid_rank s :
  PyStr.all_chars PyFloat.is_blank s = true -> is_valid_rank s = false.
Proof.
  intros Hs. unfold is_valid_rank.
  assert (PyStr.isdigit s = false) as ->.
  { unfold PyStr.isdigit. destruct s as [|c s]; [done|]. simpl in *.
    destruct (PyFloat.is_blank c) eqn:Hc; [|done].
    assert (PyStr.is_digit c = false) as ->; [|done].
    by destruct c as [[] [] [] [] [] [] [] []]. }
  assert (String.eqb s "WD" = false) as ->.
  { apply String.eqb_neq. intros ->. discriminate. }
  simpl. unfold PyFloat.parses.
  rewrite drop_underscores_free;
    [|by apply (all_chars_impl _ _ _ blank_char)|done].
  rewrite <- (append_nil_r s), lstrip_blank_append by done. done.
Qed.

Lemma blank_is_not_valid_rank_witness : is_valid_rank "   " = false.
Proof. by apply blank_is_not_valid_rank. Defined.

(** * Properties of the text of all pages *)

Lemma extract_all_text_from acc pages :
  fold_left
    (fun all_text page_text =>
       if page_has_text page_text
       then all_text +:+ (default "" page_text +:+ String newline "")
       else all_text)
    pages acc
  = acc +:+ extract_all_text pages.
Proof.
  unfold extract_all_text. revert acc.
  induction pages as [|p pages IH]; intros acc; simpl.
  - by rewrite append_nil_r.
  - rewrite (IH (if page_has_text p then _ else _)), (IH (if page_has_text p then _ else _)).
    destruct (page_has_text p); [|done]. by rewrite append_nil, append_assoc.
Qed.

Lemma extract_all_text_cons p pages :
  extract_all_text (p :: pages)
  = (if page_has_text p then default "" p +:+ String newline "" else "")
    +:+ extract_all_text pages.
Proof.
  unfold extract_all_text at 1. simpl. rewrite extract_all_text_from.
  by destruct (page_has_text p).
Qed.

Lemma extract_all_text_app ps qs :
  extract_all_text (ps ++ qs) = extract_all_text ps +:+ extract_all_text qs.
Proof.
  induction ps as [|p ps IH]; [done|].
  change ((p :: ps) ++ qs) with (p :: (ps ++ qs)).
  by rewrite !extract_all_text_cons, IH, append_assoc.
Qed.

(** X20: the text of a document is the text of its pages in order, each
    followed by a line break; a page for which the extraction gives nothing
    or an empty text adds nothing, wherever it stands. *)
Theorem extract_all_text_pages ps qs :
  extract_all_text (ps ++ None :: qs) = extract_all_text (ps ++ qs)
  /\ extract_all_text (ps ++ Some "" :: qs) = extract_all_text (ps ++ qs)
  /\ forall t, t <> "" ->
       extract_all_text (ps ++ Some t :: qs)
       = extract_all_text ps +:+ t +:+ String newline "" +:+ extract_all_text qs.
Proof.
  split; [|split].
  - by rewrite !extract_all_text_app, extract_all_text_cons.
  - by rewrite !extract_all_text_app, extract_all_text_cons.
  - intros t Ht. rewrite extract_all_text_app, extract_all_text_cons.
    destruct t; [done|]. simpl. by rewrite !append_assoc.
Qed.

Lemma extract_all_text_pages_witness :
  extract_all_text [Some "Spring Classic"; None; Some "Starting Order"]
  = "Spring Classic
Starting Order
".
Proof.
  exact (proj2 (proj2 (extract_all_text_pages [Some "Spring Classic"; None]
                         [])) "Starting Order" ltac:(discriminate)).
Defined.

(** X21: the classifier sees every page: when "Officials List" occurs in
    the text of any page, the text of the whole document is typed
    "Officials List", whatever the other pages hold. *)
Theorem officials_list_on_any_page pages t :
  Some t ∈ pages ->
  occurs_in "Officials List" t ->
  infer_document_type (extract_all_text pages) = "Officials List".
Proof.
  intros Hin (b & a & ->).
  apply list_elem_of_split in Hin as (ps & qs & ->).
  assert (occurs_in "Officials List" (extract_all_text
            (ps ++ Some (b +:+ "Officials List" +:+ a) :: qs))) as H.
  { rewrite extract_all_text_app, extract_all_text_cons.
    assert (page_has_text (Some (b +:+ "Officials List" +:+ a)) = true) as ->
      by (by destruct b).
    exists (extract_all_text ps +:+ b),
      (a +:+ String newline "" +:+ extract_all_text qs).
    simpl. by rewrite !append_assoc. }
  apply contains_spec in H. unfold infer_document_type. by rewrite H.
Qed.

Lemma officials_list_on_any_page_witness :
  infer_document_type
    (extract_all_text [Some "Starting Order"; Some "Page 2: Officials List"])
  = "Officials List".
Proof.
  apply (officials_list_on_any_page _ "Page 2: Officials List").
  - apply list_elem_of_further, list_elem_of_here.
  - by exists "Page 2: ", "".
Defined.

Lemma split_nonempty sep s : PyStr.split sep s <> [].
Proof.
  destruct s as [|c s]; simpl; [done|].
  destruct (Ascii.eqb c sep); [done|]. by destruct (PyStr.split sep s).
Qed.

Lemma split_append sep a b :
  PyStr.split sep (a +:+ String sep b) = PyStr.split sep a ++ PyStr.split sep b.
Proof.
  induction a as [|c a IH].
  - rewrite append_nil. simpl. by rewrite Ascii.eqb_refl.
  - rewrite append_cons. simpl. rewrite IH.
    destruct (Ascii.eqb c sep); [done|].
    pose proof (split_nonempty sep a). by destruct (PyStr.split sep a).
Qed.

Lemma rstrip_append a b :
  PyStr.rstrip b <> "" -> PyStr.rstrip (a +:+ b) = a +:+ PyStr.rstrip b.
Proof.
  intros Hb. induction a as [|c a IH]; [done|].
  rewrite !append_cons. simpl. rewrite IH.
  destruct (a +:+ PyStr.rstrip b) eqn:E; [|done].
  destruct a; [|done]. by rewrite append_nil in E.
Qed.

Lemma string_snoc s : s <> "" -> exists before c, s = before +:+ String c "".
Proof.
  induction s as [|a s IH]; [done|]. intros _. destruct s as [|b s].
  - by exists "", a.
  - destruct IH as (before & c & ->); [done|]. by exists (String a before), c.
Qed.

Lemma rstrip_line_break t :
  t <> "" -> trimmed t ->
  PyStr.rstrip (t +:+ String newline "") = t /\ PyStr.rstrip t = t.
Proof.
  intros Hne [_ Hlast]. destruct (string_snoc t Hne) as (before & c & ->).
  pose proof (Hlast before c eq_refl) as Hc.
  rewrite append_assoc, append_cons, append_nil.
  rewrite !rstrip_append; simpl; rewrite Hc; done.
Qed.

(** The texts of the pages, each followed by a line break. *)
Lemma extract_all_text_texts pages :
  extract_all_text pages
  = foldr (fun t rest => t +:+ String newline rest) "" (page_texts pages).
Proof.
  induction pages as [|p pages IH]; [done|].
  rewrite extract_all_text_cons, IH. unfold page_texts. simpl.
  destruct p as [[|c t]|]; simpl; try done.
  by rewrite append_assoc.
Qed.

Lemma page_texts_nonempty pages t : t ∈ page_texts pages -> t <> "".
Proof.
  unfold page_texts. intros H. apply list_elem_of_omap in H as (p & _ & Hp).
  destruct p as [[|c s]|]; simpl in Hp; try done. by injection Hp as <-.
Qed.

Lemma lines_of_texts texts :
  texts <> [] ->
  (forall t, t ∈ texts -> t <> "" /\ trimmed t) ->
  PyStr.rstrip (foldr (fun t rest => t +:+ String newline rest) "" texts) <> ""
  /\ PyStr.split newline
       (PyStr.rstrip (foldr (fun t rest => t +:+ String newline rest) "" texts))
     = concat (PyStr.split newline <$> texts).
Proof.
  induction texts as [|t texts IH]; [done|]. intros _ Hall.
  destruct (Hall t (list_elem_of_here _ _)) as [Hne Htrim].
  destruct (rstrip_line_break t Hne Htrim) as [Hbreak Hkeep].
  destruct texts as [|t2 texts].
  - simpl. by rewrite Hbreak, app_nil_r.
  - destruct IH as [IHne IHsplit]; [done| |].
    { intros s Hs. apply Hall. by apply list_elem_of_further. }
    cbn [foldr] in *.
    assert (PyStr.rstrip (t +:+ String newline
              (t2 +:+ String newline
                 (foldr (fun t rest => t +:+ String newline rest) "" texts)))
            = t +:+ String newline
                (PyStr.rstrip (t2 +:+ String newline
                   (foldr (fun t rest => t +:+ String newline rest) "" texts))))
      as ->.
    { rewrite rstrip_append.
      - f_equal. change (String newline ?x) with (String newline "" +:+ x).
        by rewrite rstrip_append.
      - change (String newline ?x) with (String newline "" +:+ x).
        rewrite rstrip_append by done. done. }
    split; [by destruct t|].
    rewrite split_append, IHsplit. done.
Qed.

(** X22: page breaks do not disturb the lines.  When every page text is
    free of white space at both ends, the lines header extraction works on
    are the lines of the first page with text, then those of the next, and
    so on; pages without text take up no line. *)
Theorem text_lines_of_pages pages :
  page_texts pages <> [] ->
  (forall t, t ∈ page_texts pages -> trimmed t) ->
  text_lines (extract_all_text pages)
  = concat (PyStr.split newline <$> page_texts pages).
Proof.
  intros Hne Htrim. rewrite extract_all_text_texts. unfold text_lines.
  assert (forall t, t ∈ page_texts pages -> t <> "" /\ trimmed t) as Hall.
  { intros t Ht. split; [by apply (page_texts_nonempty pages)|by apply Htrim]. }
  unfold PyStr.strip.
  assert (PyStr.lstrip
            (foldr (fun t rest => t +:+ String newline rest) "" (page_texts pages))
          = foldr (fun t rest => t +:+ String newline rest) "" (page_texts pages))
    as ->.
  { destruct (page_texts pages) as [|t texts]; [done|].
    destruct (Hall t (list_elem_of_here _ _)) as [Ht [Hfirst _]].
    destruct t as [|c t]; [done|]. cbn [foldr]. rewrite append_cons. simpl.
    by rewrite (Hfirst c t eq_refl). }
  by apply lines_of_texts.
Qed.

Lemma text_lines_of_pages_witness :
  text_lines
    (extract_all_text
       [Some "Spring Classic
Toronto, ON"; None; Some "July 14-16, 2024
Starting Order"])
  = ["Spring Classic"; "Toronto, ON"; "July 14-16, 2024"; "Starting Order"].
Proof.
  apply (text_lines_of_pages
           [Some "Spring Classic
Toronto, ON"; None; Some "July 14-16, 2024
Starting Order"]); [done|].
  intros t Ht. apply list_elem_of_In in Ht. simpl in Ht.
  destruct Ht as [<-|[<-|[]]].
  - exact (strip_trimmed "Spring Classic
Toronto, ON").
  - exact (strip_trimmed "July 14-16, 2024
Starting Order").
Defined.
